(** * Verification of the streamable-HTTP MCP weather server
    (examples/express-AppPlatform-mcp-server-streamable/src/index.ts).

    A shallow embedding of the parts of [index.ts] that the server's
    behaviour rests on: the JavaScript values it reads and writes, the
    Node response object it writes to, the [POST /mcp] error path, the
    start-up check of the environment, the Express layer stack, the
    [/health] and [/] handlers and [makeNWSRequest]. *)

From Stdlib Require Import ZArith String List Bool Lia Ascii.
Import ListNotations.
Open Scope Z_scope.
Open Scope string_scope.
Set Warnings "-register-all".

(* ================================================================= *)
(** ** JavaScript values *)

Module Js.

(** JSON values as [express.json()] produces them, plus [undefined].
    Numbers are integers: the correlation ids and codes that the
    server handles are integers or strings. *)
Inductive value : Type :=
| JUndefined
| JNull
| JBool (b : bool)
| JNum (n : Z)
| JStr (s : string)
| JArr (xs : list value)
| JObj (fields : list (string * value)).

(** JavaScript truthiness ([!!v]). *)
Definition truthy (v : value) : bool :=
  match v with
  | JUndefined | JNull => false
  | JBool b => b
  | JNum n => negb (Z.eqb n 0)
  | JStr s => negb (String.eqb s "")
  | JArr _ | JObj _ => true
  end.

(** [a || b]. *)
Definition js_or (a b : value) : value := if truthy a then a else b.

(** Field lookup in an object literal; [JSON.parse] keeps the last of
    duplicated keys, so the last binding wins. *)
Fixpoint assoc_last (k : string) (fs : list (string * value)) : option value :=
  match fs with
  | [] => None
  | (k', v) :: rest =>
      match assoc_last k rest with
      | Some w => Some w
      | None => if String.eqb k k' then Some v else None
      end
  end.

(** [v?.k]: [undefined] on [null]/[undefined], the field on an object,
    and [undefined] for a missing field or a non-object. *)
Definition opt_get (v : value) (k : string) : value :=
  match v with
  | JObj fs => match assoc_last k fs with Some w => w | None => JUndefined end
  | _ => JUndefined
  end.

End Js.

Import Js.

(* ================================================================= *)
(** ** The Node response object *)

Module Res.

(** What reaches the wire: a status line with headers, body chunks,
    and the end of the response. *)
Inductive wire : Type :=
| WHead (status : Z) (headers : list (string * string))
| WChunk (s : string)
| WEnd (body : option value).

Record res : Type := mk_res {
  statusCode : Z;
  headers : list (string * string);
  headersSent : bool;
  finished : bool;
  log : list wire
}.

(** A response before anything is sent, with the headers that earlier
    middleware set. *)
Definition start (hs : list (string * string)) : res := mk_res 200 hs false false [].

(** Operations a handler can perform on [res]. *)
Inductive op : Type :=
| OpStatus (st : Z)
| OpSetHeader (k v : string)
| OpWriteHead (st : Z)
| OpWrite (s : string)
| OpEnd (body : option value).

Definition set_header (k v : string) (hs : list (string * string)) :=
  (k, v) :: filter (fun kv => negb (String.eqb (fst kv) k)) hs.

(** Sending the head implicitly, as [write] and [end] do when
    [headersSent] is still false. *)
Definition ensure_head (r : res) : res :=
  if headersSent r then r
  else mk_res (statusCode r) (headers r) true (finished r)
              (log r ++ [WHead (statusCode r) (headers r)]).

(** One operation.  After the head is sent, [setHeader] and
    [writeHead] are refused; after [end], writes are refused (Node
    reports them as errors and writes nothing). *)
Definition apply_op (o : op) (r : res) : res :=
  match o with
  | OpStatus st => mk_res st (headers r) (headersSent r) (finished r) (log r)
  | OpSetHeader k v =>
      if headersSent r then r
      else mk_res (statusCode r) (set_header k v (headers r)) false (finished r) (log r)
  | OpWriteHead st =>
      if headersSent r then r
      else mk_res st (headers r) true (finished r) (log r ++ [WHead st (headers r)])
  | OpWrite s =>
      if finished r then r
      else let r' := ensure_head r in
           mk_res (statusCode r') (headers r') true false (log r' ++ [WChunk s])
  | OpEnd b =>
      if finished r then r
      else let r' := ensure_head r in
           mk_res (statusCode r') (headers r') true true (log r' ++ [WEnd b])
  end.

Definition apply_ops (os : list op) (r : res) : res :=
  fold_left (fun acc o => apply_op o acc) os r.

(** [res.status(st)]. *)
Definition status (st : Z) (r : res) : res := apply_op (OpStatus st) r.

(** [res.json(v)]: content type, then [send], which ends the response. *)
Definition json (v : value) (r : res) : res :=
  apply_op (OpEnd (Some v)) (apply_op (OpSetHeader "Content-Type" "application/json; charset=utf-8") r).

(** Number of terminal writes (ends of response) on the wire. *)
Definition terminal_writes (r : res) : nat :=
  length (filter (fun w => match w with WEnd _ => true | _ => false end) (log r)).

End Res.

Import Res.

(* ================================================================= *)
(** ** [app.post('/mcp')] *)

Module PostMcp.

(** How [transport.handleRequest(req, res, req.body)] ran: the
    operations it performed on [res], and whether it returned or
    threw. *)
Inductive outcome : Type := Returned | Threw.

Record transport_run : Type := mk_run {
  run_ops : list op;
  run_outcome : outcome
}.

(** The JSON-RPC error envelope built in the [catch] block. *)
Definition error_envelope (body : value) : value :=
  JObj [("jsonrpc", JStr "2.0");
        ("error", JObj [("code", JNum (-32603));
                        ("message", JStr "Internal server error")]);
        ("id", js_or (opt_get body "id") JNull)].

(** The handler: run the transport; on an exception, write the 500
    envelope unless the head has already been sent. *)
Definition post_mcp (body : value) (t : transport_run) (r : res) : res :=
  let r1 := apply_ops (run_ops t) r in
  match run_outcome t with
  | Returned => r1
  | Threw =>
      if headersSent r1 then r1
      else json (error_envelope body) (status 500 r1)
  end.

End PostMcp.

(* ================================================================= *)
(** ** [process.env] and start-up *)

Module Env.

(** [process.env]: a variable is unset ([None]) or holds a string. *)
Definition env := string -> option string.

(** [!!process.env[name]]. *)
Definition is_set (e : env) (name : string) : bool :=
  match e name with
  | Some s => negb (String.eqb s "")
  | None => false
  end.

(** [process.env[name]] as a JavaScript value. *)
Definition env_value (e : env) (name : string) : value :=
  match e name with Some s => JStr s | None => JUndefined end.

Definition requiredEnvVars : list string :=
  ["DESCOPE_PROJECT_ID"; "DESCOPE_MANAGEMENT_KEY"; "SERVER_URL"].

(** [requiredEnvVars.filter(varName => !process.env[varName])]. *)
Definition missingEnvVars (e : env) : list string :=
  filter (fun v => negb (is_set e v)) requiredEnvVars.

(** Observable events of the process at start-up. *)
Inductive event : Type :=
| EError (msg : string) (arg : list string)
| ELog (msg : string) (arg : string)
| EExit (code : Z)
| EConnect
| EListen (port : string).

(** [process.env.PORT || 3000]. *)
Definition PORT (e : env) : string :=
  match e "PORT" with
  | Some p => if String.eqb p "" then "3000" else p
  | None => "3000"
  end.

Definition set_or_missing (e : env) (name : string) : string :=
  if is_set e name then "Set" else "Missing".

(** The top level of [index.ts] up to the call of [app.listen]: the
    check of the required variables, the log of their state, then
    [setupServer()] ([server.connect(transport)], which succeeds when
    [connect_ok]) with its logs, and the call of [app.listen(PORT)] or,
    in the two [catch]es, the error logs and [process.exit(1)].  The
    trace ends at the call of [app.listen]: what follows it (the
    listening logs, or a listen error such as [EADDRINUSE], which ends
    the process too) is not modelled.  Error objects are not shown. *)
Definition startup (e : env) (connect_ok : bool) : list event :=
  let missing := missingEnvVars e in
  if Nat.ltb 0 (length missing) then
    [EError "Missing required environment variables:" missing;
     EError "Please check your .env file and ensure all required variables are set." [];
     EExit 1]
  else
    [ELog "Environment variables loaded:" "";
     ELog "- DESCOPE_PROJECT_ID:" (set_or_missing e "DESCOPE_PROJECT_ID");
     ELog "- DESCOPE_MANAGEMENT_KEY:" (set_or_missing e "DESCOPE_MANAGEMENT_KEY");
     ELog "- SERVER_URL:" (match e "SERVER_URL" with Some u => u | None => "undefined" end);
     EConnect] ++
    (if connect_ok
     then [ELog "MCP Server connected to transport successfully" "";
           ELog "MCP Server setup complete" "";
           EListen (PORT e)]
     else [EError "Failed to set up the MCP server:" [];
           EError "Failed to start server:" [];
           EExit 1]).

End Env.

Import Env.

(* ================================================================= *)
(** ** [app.get('/')] *)

Module Root.

(** The body that the root endpoint passes to [res.json]. *)
Definition root_body (e : env) : value :=
  JObj [("message", JStr "Weather MCP Server is running");
        ("endpoints", JObj [("mcp", JStr "/mcp");
                            ("health", JStr "/health");
                            ("oauth_metadata", JStr "/.well-known/oauth-authorization-server")]);
        ("environment", JObj [("hasDescopeProjectId", JBool (is_set e "DESCOPE_PROJECT_ID"));
                              ("hasDescopeManagementKey", JBool (is_set e "DESCOPE_MANAGEMENT_KEY"));
                              ("serverUrl", env_value e "SERVER_URL")])].

Definition get_root (e : env) (r : res) : res := json (root_body e) r.

End Root.

(* ================================================================= *)
(** ** [makeNWSRequest] *)

Module Nws.

(** The errors that the [try] block can raise. *)
Inductive js_error : Type :=
| FetchFailed (msg : string)          (* [fetch] rejects: network error *)
| HttpError (status : Z)              (* [throw new Error(`HTTP error! status: ...`)] *)
| JsonFailed (msg : string).          (* [response.json()] rejects *)

(** A computation that returns normally or throws. *)
Inductive exc (A : Type) : Type :=
| Normal (a : A)
| Thrown (e : js_error).
Arguments Normal {A} a.
Arguments Thrown {A} e.

Definition ret {A} (a : A) : exc A := Normal a.
Definition throw {A} (e : js_error) : exc A := Thrown e.
Definition bind {A B} (m : exc A) (k : A -> exc B) : exc B :=
  match m with Normal a => k a | Thrown e => Thrown e end.
Definition try_catch {A} (m : exc A) (h : js_error -> exc A) : exc A :=
  match m with Normal a => Normal a | Thrown e => h e end.

Declare Scope exc_scope.
Notation "x <- m ;; k" := (bind m (fun x => k))
  (at level 61, m at next level, right associativity) : exc_scope.
Notation "m ;;; k" := (bind m (fun _ => k))
  (at level 61, right associativity) : exc_scope.
Open Scope exc_scope.

(** What [fetch] resolves to: [ok], [status] and the outcome of
    [response.json()]. *)
Record response : Type := mk_response {
  ok : bool;
  resp_status : Z;
  resp_json : exc value
}.

Definition USER_AGENT := "weather-app/1.0".

Definition nws_headers : list (string * string) :=
  [("User-Agent", USER_AGENT); ("Accept", "application/geo+json")].

(** [makeNWSRequest(url)], for a [fetch] given as a function of the URL
    and headers; [console.error] has no effect on the result. *)
Definition makeNWSRequest (fetch : string -> list (string * string) -> exc response)
  (url : string) : exc (option value) :=
  try_catch
    (response <- fetch url nws_headers ;;
     (if negb (ok response) then throw (HttpError (resp_status response)) else ret tt) ;;;
     v <- resp_json response ;;
     ret (Some v))
    (fun _ => ret None).

End Nws.

(* ================================================================= *)
(** ** [new Date().toISOString()] and [app.get('/health')] *)

Module Iso.
Local Open Scope Z_scope.

Definition msPerDay : Z := 86400000.

(** The proleptic Gregorian date of a day number (days since
    1970-01-01), by eras of 400 years (146097 days): the date that
    ECMA-262's YearFromTime, MonthFromTime and DateFromTime give. *)
Definition civil_of_doe (doe : Z) : Z * Z * Z :=
  let yoe := (doe - doe / 1460 + doe / 36524 - doe / 146096) / 365 in
  let doy := doe - (365 * yoe + yoe / 4 - yoe / 100) in
  let mp := (5 * doy + 2) / 153 in
  let d := doy - (153 * mp + 2) / 5 + 1 in
  let m := if mp <? 10 then mp + 3 else mp - 9 in
  (yoe, m, d).

Definition civil_from_days (z : Z) : Z * Z * Z :=
  let z' := z + 719468 in
  let era := z' / 146097 in
  let doe := z' mod 146097 in
  let '(yoe, m, d) := civil_of_doe doe in
  (yoe + era * 400 + (if m <=? 2 then 1 else 0), m, d).

(** The inverse: the day number of a date. *)
Definition doe_of_civil (yoe m d : Z) : Z :=
  let doy := (153 * (if m >? 2 then m - 3 else m + 9) + 2) / 5 + d - 1 in
  yoe * 365 + yoe / 4 - yoe / 100 + doy.

Definition days_from_civil (y m d : Z) : Z :=
  let y' := y - (if m <=? 2 then 1 else 0) in
  let era := y' / 400 in
  let yoe := y' - era * 400 in
  era * 146097 + doe_of_civil yoe m d - 719468.

Definition leap (y : Z) : bool :=
  (y mod 4 =? 0) && (negb (y mod 100 =? 0) || (y mod 400 =? 0)).

Definition days_in_month (y m : Z) : Z :=
  if m =? 2 then (if leap y then 29 else 28)
  else if (m =? 4) || (m =? 6) || (m =? 9) || (m =? 11) then 30
  else 31.

(** A decimal digit. *)
Definition digit (d : Z) : ascii := ascii_of_nat (48 + Z.to_nat d).

(** The [w] low decimal digits of [n], zero-padded on the left
    (ECMA-262's ToZeroPaddedDecimalString for [n < 10^w]). *)
Fixpoint fixed (w : nat) (n : Z) : string :=
  match w with
  | O => ""
  | S w' => String (digit ((n / 10 ^ Z.of_nat w') mod 10)) (fixed w' (n mod 10 ^ Z.of_nat w'))
  end.

(** The year field: four digits for years 0..9999, otherwise a sign
    and six digits (the expanded years of the Date Time String Format). *)
Definition year_str (y : Z) : string :=
  if (0 <=? y) && (y <=? 9999) then fixed 4 y
  else (if y <? 0 then "-" else "+") ++ fixed 6 (Z.abs y).

(** [Date.prototype.toISOString] of a time value [t] (milliseconds since
    the epoch): YYYY-MM-DDTHH:mm:ss.sssZ. *)
Definition toISOString (t : Z) : string :=
  let '(y, m, d) := civil_from_days (t / msPerDay) in
  let h := (t / 3600000) mod 24 in
  let mi := (t / 60000) mod 60 in
  let s := (t / 1000) mod 60 in
  let ms := t mod 1000 in
  year_str y ++ "-" ++ fixed 2 m ++ "-" ++ fixed 2 d ++ "T" ++
  fixed 2 h ++ ":" ++ fixed 2 mi ++ ":" ++ fixed 2 s ++ "." ++ fixed 3 ms ++ "Z".

(** A reader of ISO 8601 UTC timestamps in the Date Time String Format,
    used as the specification of a well-formed timestamp: it accepts
    only fields in range (a real day of the month, hours below 24, ...)
    and returns the time value the string denotes. *)
Definition digit_val (c : ascii) : option Z :=
  let n := nat_of_ascii c in
  if (48 <=? n)%nat && (n <=? 57)%nat then Some (Z.of_nat (n - 48)) else None.

Fixpoint read_digits (w : nat) (s : string) (acc : Z) : option (Z * string) :=
  match w with
  | O => Some (acc, s)
  | S w' =>
      match s with
      | String c s' =>
          match digit_val c with
          | Some v => read_digits w' s' (acc * 10 + v)
          | None => None
          end
      | EmptyString => None
      end
  end.

Definition expect (c : ascii) (s : string) : option string :=
  match s with
  | String c' s' => if Ascii.eqb c c' then Some s' else None
  | EmptyString => None
  end.

Definition read_year (s : string) : option (Z * string) :=
  match s with
  | String "+"%char s' => read_digits 6 s' 0
  | String "-"%char s' =>
      match read_digits 6 s' 0 with
      | Some (y, r) => Some (- y, r)
      | None => None
      end
  | _ => read_digits 4 s 0
  end.

Definition obind {A B} (o : option A) (k : A -> option B) : option B :=
  match o with Some a => k a | None => None end.

Definition parse_iso (s : string) : option Z :=
  obind (read_year s) (fun '(y, s) =>
  obind (expect "-" s) (fun s =>
  obind (read_digits 2 s 0) (fun '(m, s) =>
  obind (expect "-" s) (fun s =>
  obind (read_digits 2 s 0) (fun '(d, s) =>
  obind (expect "T" s) (fun s =>
  obind (read_digits 2 s 0) (fun '(h, s) =>
  obind (expect ":" s) (fun s =>
  obind (read_digits 2 s 0) (fun '(mi, s) =>
  obind (expect ":" s) (fun s =>
  obind (read_digits 2 s 0) (fun '(sec, s) =>
  obind (expect "." s) (fun s =>
  obind (read_digits 3 s 0) (fun '(ms, s) =>
  obind (expect "Z" s) (fun s =>
  if String.eqb s "" && (1 <=? m) && (m <=? 12) && (1 <=? d) && (d <=? days_in_month y m)
     && (h <? 24) && (mi <? 60) && (sec <? 60)
  then Some (days_from_civil y m d * msPerDay + h * 3600000 + mi * 60000 + sec * 1000 + ms)
  else None)))))))))))))).

End Iso.

Module Health.
Import Iso.

(** The body of [app.get('/health')] at time [now]. *)
Definition health_body (now : Z) : value :=
  JObj [("status", JStr "ok"); ("timestamp", JStr (toISOString now))].

(** The handler: [res.json(...)] and nothing else. *)
Definition get_health (now : Z) (r : res) : res := json (health_body now) r.

End Health.

(* ================================================================= *)
(** ** The Express application *)

Module Express.
Import PostMcp Health Root.

Inductive method : Type := GET | HEAD | POST | PUT | PATCH | DELETE | OPTIONS.

(** A request: Node lower-cases the names of incoming headers; the body
    is what [express.json()] parsed.  [req_body_error] is the status of
    the error [express.json()] raises on the body: 400 for a JSON body
    that does not parse or (strict mode, the default) whose top-level
    value is not an object or an array, 413 for one over the 100kb
    limit, 415 for an unsupported charset or content encoding; [None]
    when it parsed the body or left it alone (no body, or a content
    type other than [application/json]). *)
Record request : Type := mk_request {
  req_method : method;
  req_path : string;
  req_headers : list (string * string);
  req_body : value;
  req_body_error : option Z
}.

(** A request whose body [express.json()] does not reject. *)
Definition mk_req (m : method) (p : string) (hs : list (string * string)) (b : value)
  : request :=
  mk_request m p hs b None.

Fixpoint assoc_first (k : string) (l : list (string * string)) : option string :=
  match l with
  | [] => None
  | (k', v) :: rest => if String.eqb k k' then Some v else assoc_first k rest
  end.

Definition header (name : string) (req : request) : option string :=
  assoc_first name (req_headers req).

Definition lower_ascii (c : ascii) : ascii :=
  let n := nat_of_ascii c in
  if (65 <=? n)%nat && (n <=? 90)%nat then ascii_of_nat (n + 32) else c.

Fixpoint lower (s : string) : string :=
  match s with
  | EmptyString => EmptyString
  | String c s' => String (lower_ascii c) (lower s')
  end.

(** Express's default path matching: case-insensitive and not strict
    about a trailing slash.  A route matches the path itself; [app.use]
    also matches every path below its mount path. *)
Definition route_match (p path : string) : bool :=
  String.eqb (lower path) (lower p) || String.eqb (lower path) (lower p ++ "/").

Definition use_match (p path : string) : bool :=
  route_match p path || String.prefix (lower p ++ "/") (lower path).

(** [app.get] routes also answer HEAD. *)
Definition method_match (m : method) (req : request) : bool :=
  match m, req_method req with
  | GET, GET | GET, HEAD | HEAD, HEAD | POST, POST | PUT, PUT
  | PATCH, PATCH | DELETE, DELETE | OPTIONS, OPTIONS => true
  | _, _ => false
  end.

(** A middleware or route handler: the response after it ran, and
    whether it called [next()]. *)
Definition handler := request -> res -> res * bool.

Record layer : Type := mk_layer {
  layer_name : string;
  layer_matches : request -> bool;
  layer_handle : handler
}.

(** Express's final handler: 404 when nobody answered. *)
Definition final_handler (req : request) (r : res) : res :=
  if headersSent r then r
  else apply_ops [OpStatus 404; OpSetHeader "Content-Type" "text/html; charset=utf-8";
                  OpEnd (Some (JStr ("Cannot " ++ req_path req)))] r.

(** Dispatch through the stack, in registration order; the trace lists
    the layers that ran, each with whether it called [next()]. *)
Fixpoint run (ls : list layer) (req : request) (r : res) : res * list (string * bool) :=
  match ls with
  | [] => (final_handler req r, [])
  | l :: ls' =>
      if layer_matches l req then
        let '(r', nx) := layer_handle l req r in
        if nx then
          let '(r'', tr) := run ls' req r' in (r'', (layer_name l, true) :: tr)
        else (r', [(layer_name l, false)])
      else run ls' req r
  end.

(** Express's final handler for [next(err)]: the error's status and an
    HTML page with the status message (what it shows when [NODE_ENV] is
    [production]; otherwise the page shows the error's stack). *)
Definition status_message (s : Z) : string :=
  if Z.eqb s 400 then "Bad Request"
  else if Z.eqb s 413 then "Payload Too Large"
  else if Z.eqb s 415 then "Unsupported Media Type"
  else "Internal Server Error".

Definition final_error_handler (s : Z) (r : res) : res :=
  if headersSent r then r
  else apply_ops [OpStatus s; OpSetHeader "Content-Security-Policy" "default-src 'none'";
                  OpSetHeader "X-Content-Type-Options" "nosniff";
                  OpSetHeader "Content-Type" "text/html; charset=utf-8";
                  OpEnd (Some (JStr (status_message s)))] r.

(** [express.json()] (line 245): on a body it rejects it calls
    [next(err)]; [index.ts] registers no error-handling middleware, so
    Express skips every later layer and its final handler answers. *)
Definition json_parser : handler := fun req r =>
  match req_body_error req with
  | None => (r, true)
  | Some s => (final_error_handler s r, false)
  end.

Definition set_headers (hs : list (string * string)) (r : res) : res :=
  apply_ops (map (fun kv => OpSetHeader (fst kv) (snd kv)) hs) r.

(** [cors({origin: true, methods: '*', allowedHeaders: ...})]: the
    request's origin is reflected; a preflight is answered with 204. *)
Definition cors_app : handler := fun req r =>
  let origin := match header "origin" req with
                | Some o => [("Access-Control-Allow-Origin", o)]
                | None => []
                end in
  let r1 := set_headers (origin ++ [("Vary", "Origin")]) r in
  match req_method req with
  | OPTIONS =>
      (apply_ops [OpSetHeader "Access-Control-Allow-Methods" "*";
                  OpSetHeader "Access-Control-Allow-Headers" "Authorization, Origin, Content-Type, Accept, *";
                  OpStatus 204; OpSetHeader "Content-Length" "0"; OpEnd None] r1, false)
  | _ => (r1, true)
  end.

(** [cors()] with its defaults, as mounted by [app.options("*", ...)]. *)
Definition cors_default : handler := fun req r =>
  match req_method req with
  | OPTIONS =>
      (apply_ops [OpSetHeader "Access-Control-Allow-Origin" "*";
                  OpSetHeader "Access-Control-Allow-Methods" "GET,HEAD,PUT,PATCH,POST,DELETE";
                  OpStatus 204; OpSetHeader "Content-Length" "0"; OpEnd None] r, false)
  | _ => (apply_op (OpSetHeader "Access-Control-Allow-Origin" "*") r, true)
  end.

(** [express.static('public')]: GET and HEAD requests for a file of the
    [public] directory are answered with it. *)
Definition serve_static (public : string -> option string) : handler := fun req r =>
  match req_method req with
  | GET | HEAD =>
      match public (req_path req) with
      | Some content => (apply_op (OpEnd (Some (JStr content))) r, false)
      | None => (r, true)
      end
  | _ => (r, true)
  end.

(** The handler of [app.get('/.well-known/oauth-authorization-server')]:
    three CORS headers, then [next()]. *)
Definition well_known_cors : handler := fun _ r =>
  (set_headers [("Access-Control-Allow-Origin", "*");
                ("Access-Control-Allow-Methods", "GET, OPTIONS");
                ("Access-Control-Allow-Headers", "Content-Type, Authorization")] r, true).

Definition mcp_get_body : value :=
  JObj [("message", JStr "MCP endpoint is available. Use POST with JSON-RPC 2.0 format.");
        ("server", JStr "weather-mcp-server");
        ("version", JStr "1.0.1")].

(** What the application depends on: the environment, the clock, the
    [public] directory, the two middlewares of [@descope/mcp-express]
    and how [transport.handleRequest] runs on a request. *)
Record deps : Type := mk_deps {
  d_env : env;
  d_now : Z;
  d_public : string -> option string;
  d_authRouter : handler;
  d_bearerAuth : handler;
  d_transport : request -> transport_run
}.

Definition route (m : method) (p : string) (name : string) (h : handler) : layer :=
  mk_layer name (fun req => method_match m req && route_match p (req_path req)) h.

Definition use_all (name : string) (h : handler) : layer :=
  mk_layer name (fun _ => true) h.

(** The stack that [index.ts] builds, in its order. *)
Definition app (D : deps) : list layer :=
  [use_all "jsonParser" json_parser;
   use_all "serveStatic" (serve_static (d_public D));
   use_all "corsMiddleware" cors_app;
   route OPTIONS "*" "optionsPreflight" cors_default;
   use_all "authRouter" (d_authRouter D);
   mk_layer "bearerAuth" (fun req => use_match "/mcp" (req_path req)) (d_bearerAuth D);
   route GET "/health" "GET /health" (fun _ r => (get_health (d_now D) r, false));
   route GET "/.well-known/oauth-authorization-server"
         "GET /.well-known/oauth-authorization-server" well_known_cors;
   route GET "/" "GET /" (fun _ r => (get_root (d_env D) r, false));
   route POST "/mcp" "POST /mcp"
         (fun req r => (post_mcp (req_body req) (d_transport D req) r, false));
   route GET "/mcp" "GET /mcp" (fun _ r => (json mcp_get_body r, false))].

Definition handle (D : deps) (req : request) : res * list (string * bool) :=
  run (app D) req (start []).

End Express.

(* ================================================================= *)
(** ** The [@descope/mcp-express] middlewares, as the SDK guide of the
    repository describes them *)

Module DescopeGuide.
Import Express.

Definition SERVER_URL := "https://mcp.example.com".

(** The authorization-server metadata (RFC 8414). *)
Definition metadata : value :=
  JObj [("issuer", JStr SERVER_URL);
        ("authorization_endpoint", JStr (SERVER_URL ++ "/authorize"));
        ("token_endpoint", JStr "https://api.descope.com/oauth2/v1/token");
        ("registration_endpoint", JStr (SERVER_URL ++ "/register"));
        ("response_types_supported", JArr [JStr "code"]);
        ("grant_types_supported", JArr [JStr "authorization_code"; JStr "refresh_token"]);
        ("code_challenge_methods_supported", JArr [JStr "S256"])].

(** [descopeMcpAuthRouter()]: "Adds OAuth endpoints
    (/.well-known/oauth-authorization-server, /register, etc.)"; every
    other request goes on to [next()]. *)
Definition auth_router : handler := fun req r =>
  if method_match GET req && route_match "/.well-known/oauth-authorization-server" (req_path req)
  then (json metadata r, false)
  else if method_match POST req && route_match "/register" (req_path req)
  then (json (JObj [("client_id", JStr "client-1")]) (status 201 r), false)
  else if method_match GET req && route_match "/authorize" (req_path req)
  then (apply_ops [OpStatus 302; OpSetHeader "Location" "https://api.descope.com/login"; OpEnd None] r, false)
  else (r, true).

(** [descopeMcpBearerAuth()]: a request without an [Authorization]
    header is refused with 401 and a [WWW-Authenticate] challenge; token
    verification is left to Descope, and every token passes here. *)
Definition bearer_auth : handler := fun req r =>
  match header "authorization" req with
  | None =>
      (json (JObj [("error", JStr "invalid_request");
                   ("error_description", JStr "Missing Authorization header")])
            (apply_op (OpSetHeader "WWW-Authenticate" "Bearer error=invalid_request")
                      (status 401 r)), false)
  | Some _ => (r, true)
  end.

(** An instance of the application's dependencies with these middlewares. *)
Definition guide_env : env := fun k =>
  if String.eqb k "SERVER_URL" then Some SERVER_URL
  else if String.eqb k "DESCOPE_PROJECT_ID" then Some "P-guide"
  else if String.eqb k "DESCOPE_MANAGEMENT_KEY" then Some "K-guide"
  else None.

Definition guide_deps : deps :=
  mk_deps guide_env 1700000000000 (fun _ => None) auth_router bearer_auth
          (fun _ => PostMcp.mk_run [] PostMcp.Returned).

End DescopeGuide.

(* ================================================================= *)
(** ** The one transport shared by all requests (lines 254-257, 298-303,
    333, 383) *)

(** [index.ts] creates a single [StreamableHTTPServerTransport] at module
    level; [setupServer] connects the [McpServer] to it once, every
    [POST /mcp] calls [transport.handleRequest] on that same object, and
    the [SIGINT] handler calls [transport.close()]. The store therefore
    has one transport location, threaded below through every event.

    Its fields are the ones of the SDK's transport that these calls
    touch: the session generator and session id, [_started], the open
    response streams ([_streamMapping]; the SDK names each stream by a
    fresh UUID per HTTP request, here the HTTP request's own number) and
    [_requestToStreamMapping] from a JSON-RPC request id to the stream
    that must carry its answer. *)
Module SharedTransport.
Local Open Scope list_scope.

Record transport := mk_transport {
  sessionIdGenerator : option (unit -> string);
  sessionId : option string;
  started : bool;
  streamMapping : list nat;
  requestToStreamMapping : list (Z * nat)
}.

(** [new StreamableHTTPServerTransport({sessionIdGenerator})]. *)
Definition new_transport (gen : option (unit -> string)) : transport :=
  mk_transport gen None false [] [].

(** Lines 255-257: the module-level [transport]. *)
Definition transport0 : transport := new_transport None.

Inductive event :=
| Connect                       (* server.connect(transport), line 333 *)
| Post (n : nat) (id : Z) (init : bool)
                                (* HTTP request n: POST /mcp carrying one
                                   JSON-RPC request with this id *)
| Answer (id : Z)               (* the McpServer sends its response for id *)
| Sigint.                       (* transport.close(), line 383 *)

Inductive output :=
| OHead (n : nat) (hs : list (string * string))   (* res.writeHead(200, hs) *)
| ODeliver (n : nat) (id : Z)                     (* answer written on res n *)
| ONoConnection (id : Z)                          (* send throws *)
| OClosed (ns : list nat).                        (* streams ended by close *)

Fixpoint lookup_id (id : Z) (m : list (Z * nat)) : option nat :=
  match m with
  | [] => None
  | (k, v) :: m' => if Z.eqb k id then Some v else lookup_id id m'
  end.

Definition delete_id (id : Z) (m : list (Z * nat)) : list (Z * nat) :=
  filter (fun kv => negb (Z.eqb (fst kv) id)) m.

(** [handlePostRequest]: an initialize request sets
    [sessionId = sessionIdGenerator?.()]; the SSE head carries
    [mcp-session-id] only when a session id is defined; the request id
    is then mapped to this request's stream ([Map.set] overwrites). *)
Definition handle_post (t : transport) (n : nat) (id : Z) (init : bool)
    : transport * list output :=
  let sid := if init
             then match sessionIdGenerator t with
                  | Some g => Some (g tt)
                  | None => None
                  end
             else sessionId t in
  let hs := ("Content-Type", "text/event-stream")
              :: ("Cache-Control", "no-cache")
              :: ("Connection", "keep-alive")
              :: match sid with Some s => [("mcp-session-id", s)] | None => [] end in
  (mk_transport (sessionIdGenerator t) sid (started t)
     (n :: streamMapping t) ((id, n) :: delete_id id (requestToStreamMapping t)),
   [OHead n hs]).

(** [send] of a response: look the stream up by the response's id,
    write the answer there, and clean the id (and the stream once no
    request is left on it) up. An unknown id throws. *)
Definition send_answer (t : transport) (id : Z) : transport * list output :=
  match lookup_id id (requestToStreamMapping t) with
  | None => (t, [ONoConnection id])
  | Some n =>
      let m := delete_id id (requestToStreamMapping t) in
      let streams := if existsb (fun kv => Nat.eqb (snd kv) n) m
                     then streamMapping t
                     else filter (fun k => negb (Nat.eqb k n)) (streamMapping t) in
      (mk_transport (sessionIdGenerator t) (sessionId t) (started t) streams m,
       if existsb (Nat.eqb n) (streamMapping t) then [ODeliver n id] else [])
  end.

(** [close()]: end every open stream and clear the maps. *)
Definition close (t : transport) : transport * list output :=
  (mk_transport (sessionIdGenerator t) (sessionId t) (started t) [] [],
   [OClosed (streamMapping t)]).

Definition step (t : transport) (e : event) : transport * list output :=
  match e with
  | Connect => (mk_transport (sessionIdGenerator t) (sessionId t) true
                  (streamMapping t) (requestToStreamMapping t), [])
  | Post n id init => handle_post t n id init
  | Answer id => send_answer t id
  | Sigint => close t
  end.

Fixpoint run_from (t : transport) (es : list event) : transport * list output :=
  match es with
  | [] => (t, [])
  | e :: es' =>
      let '(t1, o1) := step t e in
      let '(t2, o2) := run_from t1 es' in
      (t2, o1 ++ o2)
  end.

(** The server's life: every event acts on the one [transport0]. *)
Definition run (es : list event) : transport * list output := run_from transport0 es.

End SharedTransport.

(* ================================================================= *)
(** ** The weather tools: [formatAlert], [get-alerts], [get-forecast]
    (lines 61-238) *)

(** Strings hold UTF-8 bytes, the encoding in which the tool texts leave
    the server. The tools run on JSON that [makeNWSRequest] returns
    unchecked ([as T]), so every property access is modelled on an
    arbitrary JSON value. *)
Module Weather.
Import Nws.
Local Open Scope string_scope.

Definition NWS_API_BASE : string := "https://api.weather.gov".

Definition nl : string := String (ascii_of_nat 10) EmptyString.

(** U+00B0, the degree sign of the temperature line. *)
Definition degree : string :=
  String (ascii_of_nat 194) (String (ascii_of_nat 176) EmptyString).

(** [xs.join(sep)] on strings. *)
Definition join (sep : string) (xs : list string) : string := String.concat sep xs.

(** What a tool body throws: the (never raised, see [NwsFacts]) error of
    [makeNWSRequest], or the [TypeError] of a property access on
    [null]/[undefined] or of calling [map] on a non-array. *)
Inductive thrown : Type :=
| NwsThrown (e : js_error)
| TypeError (msg : string).

Inductive result (A : Type) : Type :=
| Ok (a : A)
| Throws (t : thrown).
Arguments Ok {A} a.
Arguments Throws {A} t.

Definition rbind {A B} (m : result A) (k : A -> result B) : result B :=
  match m with Ok a => k a | Throws t => Throws t end.

Declare Scope result_scope.
Notation "x <-? m ;; k" := (rbind m (fun x => k))
  (at level 61, m at next level, right associativity) : result_scope.
Local Open Scope result_scope.

(** [Number.prototype.toString()] on an integer. *)
Fixpoint dec_digits (fuel : nat) (n : Z) (acc : string) : string :=
  match fuel with
  | O => acc
  | S f =>
      let acc' := String (Iso.digit (n mod 10)) acc in
      if Z.ltb n 10 then acc' else dec_digits f (n / 10) acc'
  end.

Definition z_dec (n : Z) : string :=
  if Z.ltb n 0 then "-" ++ dec_digits (S (Z.to_nat (Z.log2 (- n)))) (- n) ""
  else dec_digits (S (Z.to_nat (Z.log2 n))) n "".

(** [String(v)], as a template literal converts an interpolated value:
    an array joins its elements with commas, [null] and [undefined]
    elements giving the empty string. *)
Fixpoint to_js_string (v : value) : string :=
  match v with
  | JUndefined => "undefined"
  | JNull => "null"
  | JBool b => if b then "true" else "false"
  | JNum n => z_dec n
  | JStr s => s
  | JArr xs =>
      join ","
        ((fix elems (xs : list value) : list string :=
            match xs with
            | [] => []
            | JUndefined :: xs' | JNull :: xs' => "" :: elems xs'
            | x :: xs' => to_js_string x :: elems xs'
            end) xs)
  | JObj _ => "[object Object]"
  end.

Definition nullish (v : value) : bool :=
  match v with JUndefined | JNull => true | _ => false end.

(** [v.k]: throws on [null] and [undefined]; strings and arrays have a
    [length]; other keys that the tools read are absent from every
    non-object. *)
Definition get (v : value) (k : string) : result value :=
  match v with
  | JUndefined | JNull =>
      Throws (TypeError ("Cannot read properties of " ++ to_js_string v
                         ++ " (reading '" ++ k ++ "')"))
  | JObj fs => Ok (match assoc_last k fs with Some w => w | None => JUndefined end)
  | JStr s => Ok (if String.eqb k "length" then JNum (Z.of_nat (String.length s)) else JUndefined)
  | JArr xs => Ok (if String.eqb k "length" then JNum (Z.of_nat (length xs)) else JUndefined)
  | JBool _ | JNum _ => Ok JUndefined
  end.

(** [v === 0]. *)
Definition is_zero (v : value) : bool :=
  match v with JNum n => Z.eqb n 0 | _ => false end.

Fixpoint map_result {A B} (f : A -> result B) (xs : list A) : result (list B) :=
  match xs with
  | [] => Ok []
  | x :: xs' => y <-? f x ;; ys <-? map_result f xs' ;; Ok (y :: ys)
  end.

(** [v.map(f)]: only arrays have [map]. *)
Definition js_map (f : value -> result string) (v : value) : result (list string) :=
  match v with
  | JArr xs => map_result f xs
  | _ => Throws (TypeError "map is not a function")
  end.

(** [`${v || d}`]. *)
Definition show_or (v : value) (d : string) : string := to_js_string (js_or v (JStr d)).

(** [formatAlert(feature)] (lines 70-80). *)
Definition formatAlert (feature : value) : result string :=
  props <-? get feature "properties" ;;
  event <-? get props "event" ;;
  areaDesc <-? get props "areaDesc" ;;
  severity <-? get props "severity" ;;
  status <-? get props "status" ;;
  headline <-? get props "headline" ;;
  Ok (join nl
        ["Event: " ++ show_or event "Unknown";
         "Area: " ++ show_or areaDesc "Unknown";
         "Severity: " ++ show_or severity "Unknown";
         "Status: " ++ show_or status "Unknown";
         "Headline: " ++ show_or headline "No headline";
         "---"]).

(** [state.toUpperCase()] on ASCII text. *)
Definition upper_ascii (c : ascii) : ascii :=
  let n := nat_of_ascii c in
  if (97 <=? n)%nat && (n <=? 122)%nat then ascii_of_nat (n - 32) else c.

Fixpoint upper (s : string) : string :=
  match s with
  | EmptyString => EmptyString
  | String c s' => String (upper_ascii c) (upper s')
  end.

(** [upper] is [toUpperCase] on strings of ASCII characters only;
    JavaScript also upper-cases other letters (é to É, ß to SS), which
    [upper] leaves alone. *)
Fixpoint ascii_only (s : string) : bool :=
  match s with
  | EmptyString => true
  | String c s' => Nat.ltb (nat_of_ascii c) 128 && ascii_only s'
  end.


(** [await makeNWSRequest(url)] as a JavaScript value ([null] on failure). *)
Definition nws_value (m : exc (option value)) : result value :=
  match m with
  | Normal (Some v) => Ok v
  | Normal None => Ok JNull
  | Thrown e => Throws (NwsThrown e)
  end.

Definition alerts_url (state : string) : string :=
  NWS_API_BASE ++ "/alerts?area=" ++ upper state.

(** The body of the [get-alerts] tool (lines 111-155): the text of the
    one text item of its result. *)
Definition get_alerts (fetch : string -> list (string * string) -> exc response)
    (state : string) : result string :=
  let stateCode := upper state in
  let alertsUrl := NWS_API_BASE ++ "/alerts?area=" ++ stateCode in
  alertsData <-? nws_value (makeNWSRequest fetch alertsUrl) ;;
  if negb (truthy alertsData) then Ok "Failed to retrieve alerts data" else
  features0 <-? get alertsData "features" ;;
  let features := js_or features0 (JArr []) in
  len <-? get features "length" ;;
  if is_zero len then Ok ("No active alerts for " ++ stateCode) else
  formattedAlerts <-? js_map formatAlert features ;;
  Ok ("Active alerts for " ++ stateCode ++ ":" ++ nl ++ nl ++ join nl formattedAlerts).

(** The formatting of one forecast period (lines 216-224). *)
Definition format_period (period : value) : result string :=
  name <-? get period "name" ;;
  temperature <-? get period "temperature" ;;
  temperatureUnit <-? get period "temperatureUnit" ;;
  windSpeed <-? get period "windSpeed" ;;
  windDirection <-? get period "windDirection" ;;
  shortForecast <-? get period "shortForecast" ;;
  Ok (join nl
        [show_or name "Unknown" ++ ":";
         "Temperature: " ++ show_or temperature "Unknown" ++ degree ++ show_or temperatureUnit "F";
         "Wind: " ++ show_or windSpeed "Unknown" ++ " " ++ show_or windDirection "";
         show_or shortForecast "No forecast available";
         "---"]).

(** The coordinates are JavaScript numbers; how they print
    ([toFixed(4)] in the URL, [String] in the texts) is left as a
    parameter. *)
Section Forecast.
Variable number : Type.
Variable toFixed4 : number -> string.
Variable num_str : number -> string.

Definition points_url (latitude longitude : number) : string :=
  NWS_API_BASE ++ "/points/" ++ toFixed4 latitude ++ "," ++ toFixed4 longitude.

(** The body of the [get-forecast] tool (lines 157-238). *)
Definition get_forecast (fetch : string -> list (string * string) -> exc response)
    (latitude longitude : number) : result string :=
  let pointsUrl := NWS_API_BASE ++ "/points/" ++ toFixed4 latitude ++ "," ++ toFixed4 longitude in
  pointsData <-? nws_value (makeNWSRequest fetch pointsUrl) ;;
  if negb (truthy pointsData) then
    Ok ("Failed to retrieve grid point data for coordinates: " ++ num_str latitude ++ ", "
        ++ num_str longitude
        ++ ". This location may not be supported by the NWS API (only US locations are supported).")
  else
  pointsProps <-? get pointsData "properties" ;;
  let forecastUrl := opt_get pointsProps "forecast" in
  if negb (truthy forecastUrl) then Ok "Failed to get forecast URL from grid point data" else
  forecastData <-? nws_value (makeNWSRequest fetch (to_js_string forecastUrl)) ;;
  if negb (truthy forecastData) then Ok "Failed to retrieve forecast data" else
  forecastProps <-? get forecastData "properties" ;;
  let periods := js_or (opt_get forecastProps "periods") (JArr []) in
  len <-? get periods "length" ;;
  if is_zero len then Ok "No forecast periods available" else
  formattedForecast <-? js_map format_period periods ;;
  Ok ("Forecast for " ++ num_str latitude ++ ", " ++ num_str longitude ++ ":" ++ nl ++ nl
      ++ join nl formattedForecast).

End Forecast.

End Weather.

(* ================================================================= *)
(** ** Proofs: the Node response object *)

Module ResFacts.

(** The well-formedness of a response: nothing is on the wire before
    the head, an ended response has its head sent, and the wire holds
    one end exactly when the response is finished. *)
Definition wf (r : res) : Prop :=
  (headersSent r = false -> log r = []) /\
  (finished r = true -> headersSent r = true) /\
  terminal_writes r = (if finished r then 1 else 0)%nat.

Lemma terminal_writes_app (l : list wire) (w : wire) (st : Z) hs f sent :
  terminal_writes (mk_res st hs sent f (l ++ [w])) =
  (terminal_writes (mk_res st hs sent f l) +
   match w with WEnd _ => 1 | _ => 0 end)%nat.
Proof.
  unfold terminal_writes; simpl.
  rewrite filter_app, length_app. destruct w; simpl; lia.
Qed.

Lemma ensure_head_wf (r : res) :
  wf r -> finished r = false ->
  wf (ensure_head r) /\ finished (ensure_head r) = false /\
  terminal_writes (ensure_head r) = 0%nat /\
  headersSent (ensure_head r) = true.
Proof.
  destruct r as [st hs sent f l]; unfold wf, terminal_writes, ensure_head; simpl.
  intros [H1 [H2 H3]] Hf; subst f.
  destruct sent; simpl in *.
  - repeat split; auto.
  - rewrite (H1 eq_refl). simpl. repeat split; auto; discriminate.
Qed.

Lemma apply_op_wf (o : op) (r : res) : wf r -> wf (apply_op o r).
Proof.
  destruct r as [st0 hs sent f l]. unfold wf, terminal_writes.
  intros [H1 [H2 H3]]; simpl in *.
  destruct sent, f; simpl in *;
    try (specialize (H2 eq_refl); discriminate);
    try (rewrite (H1 eq_refl) in *; clear H1);
    destruct o; simpl;
    rewrite ?filter_app, ?length_app; simpl;
    repeat split; try discriminate; try lia; auto.
Qed.

Lemma apply_ops_wf (os : list op) (r : res) : wf r -> wf (apply_ops os r).
Proof.
  revert r. induction os as [| o os IH]; intros r Hw; simpl; auto.
  apply IH, apply_op_wf, Hw.
Qed.

Lemma wf_terminal_le_1 (r : res) : wf r -> (terminal_writes r <= 1)%nat.
Proof. intros [_ [_ H]]. rewrite H. destruct (finished r); lia. Qed.

Lemma start_wf hs : wf (start hs).
Proof. unfold wf, start, terminal_writes; simpl. repeat split; discriminate. Qed.

End ResFacts.

(* ================================================================= *)
(** ** Proofs: [POST /mcp] error handling *)

Module PostMcpFacts.
Import ResFacts PostMcp.

Lemma wf_not_sent_not_finished (r : res) :
  wf r -> headersSent r = false -> finished r = false /\ log r = [].
Proof.
  intros [H1 [H2 _]] Hs. split; auto.
  destruct (finished r); auto. rewrite (H2 eq_refl) in Hs. discriminate.
Qed.

(** The envelope written on an exception, when the head is still unsent. *)
Lemma error_write_shape (body : value) (r1 : res) :
  wf r1 -> headersSent r1 = false ->
  let r := json (error_envelope body) (status 500 r1) in
  statusCode r = 500 /\ terminal_writes r = 1%nat /\
  exists hs', log r = [WHead 500 hs'; WEnd (Some (error_envelope body))].
Proof.
  intros Hw Hs. destruct (wf_not_sent_not_finished r1 Hw Hs) as [Hf Hl].
  destruct r1 as [st hs sent f l]; simpl in *; subst.
  unfold json, status; simpl. repeat split; eauto.
Qed.

(** C1: [POST /mcp] never writes two terminal responses.  Whatever
    [transport.handleRequest] did to [res] before it threw, the handler
    writes nothing more when the head was already sent, and writes
    exactly one 500 JSON-RPC error response when it was not; the wire
    never carries more than one end of response. *)
Theorem post_mcp_at_most_one_terminal_write
  (body : value) (t : transport_run) (hs : list (string * string)) :
  let r1 := apply_ops (run_ops t) (start hs) in
  let r := post_mcp body t (start hs) in
  (terminal_writes r <= 1)%nat /\
  (run_outcome t = Threw -> headersSent r1 = true -> r = r1) /\
  (run_outcome t = Threw -> headersSent r1 = false ->
     statusCode r = 500 /\ terminal_writes r = 1%nat /\
     exists hs', log r = [WHead 500 hs'; WEnd (Some (error_envelope body))]).
Proof.
  cbv zeta.
  pose proof (apply_ops_wf (run_ops t) (start hs) (start_wf hs)) as Hw.
  unfold post_mcp.
  destruct (run_outcome t).
  - repeat split; try discriminate. apply wf_terminal_le_1, Hw.
  - destruct (headersSent (apply_ops (run_ops t) (start hs))) eqn:Hs.
    + repeat split; try discriminate; auto. apply wf_terminal_le_1, Hw.
    + destruct (error_write_shape body _ Hw Hs) as [Hst [Ht Hl]].
      repeat split; try discriminate; auto. rewrite Ht. lia.
Qed.

(** A JSON-RPC request whose correlation id is the number 0. *)
Definition body_id_zero : value :=
  JObj [("jsonrpc", JStr "2.0"); ("method", JStr "tools/list"); ("id", JNum 0)].

(** [handleRequest] throws before writing anything. *)
Definition throws_early : transport_run := mk_run [] Threw.

(** The id of the envelope on the wire, if any. *)
Definition written_envelope_id (r : res) : option value :=
  match rev (log r) with
  | WEnd (Some env) :: _ => Some (opt_get env "id")
  | _ => None
  end.

(** C3: for the request with [id: 0] whose handling throws before the
    head is sent, the error envelope carries [id: null] although the
    body provides the id [0]: [req.body?.id || null] treats the falsy
    id as absent. *)
Theorem post_mcp_id_zero_becomes_null :
  opt_get body_id_zero "id" = JNum 0 /\
  written_envelope_id (post_mcp body_id_zero throws_early (start [])) = Some JNull.
Proof. split; reflexivity. Qed.

(** The envelope keeps every truthy id (non-zero numbers, non-empty
    strings, ...). *)
Lemma error_envelope_truthy_id (body : value) :
  truthy (opt_get body "id") = true ->
  opt_get (error_envelope body) "id" = opt_get body "id".
Proof. intros H. unfold error_envelope, js_or. simpl. rewrite H. reflexivity. Qed.

End PostMcpFacts.

(* ================================================================= *)
(** ** Proofs: start-up and the root endpoint *)

Module EnvFacts.

Lemma missingEnvVars_spec (e : env) (v : string) :
  In v (missingEnvVars e) <-> In v requiredEnvVars /\ is_set e v = false.
Proof.
  unfold missingEnvVars. rewrite filter_In, negb_true_iff. tauto.
Qed.

(** C4: when a required variable is unset (or empty), start-up prints
    exactly the missing names, in the order of [requiredEnvVars], and
    exits with status 1 without listening; when all three are set, it
    goes on to connect the server and, if that succeeds, to listen. *)
Theorem startup_fails_fast_on_missing_env (e : env) (connect_ok : bool) :
  (forall v, In v (missingEnvVars e) <->
             In v requiredEnvVars /\ is_set e v = false) /\
  (missingEnvVars e <> [] ->
     startup e connect_ok =
       [EError "Missing required environment variables:" (missingEnvVars e);
        EError "Please check your .env file and ensure all required variables are set." [];
        EExit 1] /\
     forall p, ~ In (EListen p) (startup e connect_ok)) /\
  (missingEnvVars e = [] ->
     ~ In (EExit 1) (firstn 5 (startup e connect_ok)) /\
     In EConnect (startup e connect_ok) /\
     (connect_ok = true -> In (EListen (PORT e)) (startup e connect_ok))).
Proof.
  split; [apply missingEnvVars_spec |]. split.
  - intros Hne. unfold startup.
    destruct (missingEnvVars e) as [| m ms]; [congruence |]. simpl.
    split; [reflexivity |]. intros p [H | [H | [H | []]]]; discriminate.
  - intros He. unfold startup. rewrite He. simpl.
    split; [| split].
    + intros [H | [H | [H | [H | [H | []]]]]]; discriminate.
    + tauto.
    + intros ->. simpl. tauto.
Qed.

End EnvFacts.

Module RootFacts.
Import Root.

(** C10: the root endpoint's body depends on the two Descope
    credentials only through whether they are set: two environments that
    agree on every other variable, and in which both credentials are set,
    give the same body. *)
Theorem root_body_hides_credentials (e1 e2 : env)
  (Hothers : forall k, k <> "DESCOPE_PROJECT_ID" -> k <> "DESCOPE_MANAGEMENT_KEY" ->
                       e1 k = e2 k)
  (Hp1 : is_set e1 "DESCOPE_PROJECT_ID" = true)
  (Hp2 : is_set e2 "DESCOPE_PROJECT_ID" = true)
  (Hk1 : is_set e1 "DESCOPE_MANAGEMENT_KEY" = true)
  (Hk2 : is_set e2 "DESCOPE_MANAGEMENT_KEY" = true) :
  root_body e1 = root_body e2 /\ get_root e1 = get_root e2.
Proof.
  assert (Hu : env_value e1 "SERVER_URL" = env_value e2 "SERVER_URL").
  { unfold env_value. rewrite Hothers by discriminate. reflexivity. }
  assert (Hb : root_body e1 = root_body e2).
  { unfold root_body. rewrite Hp1, Hp2, Hk1, Hk2, Hu. reflexivity. }
  split; [exact Hb |]. unfold get_root. rewrite Hb. reflexivity.
Qed.

Definition env_a : env := fun k =>
  if String.eqb k "DESCOPE_PROJECT_ID" then Some "P2abc"
  else if String.eqb k "DESCOPE_MANAGEMENT_KEY" then Some "K-secret-1"
  else if String.eqb k "SERVER_URL" then Some "https://mcp.example.com"
  else None.

Definition env_b : env := fun k =>
  if String.eqb k "DESCOPE_PROJECT_ID" then Some "P2xyz"
  else if String.eqb k "DESCOPE_MANAGEMENT_KEY" then Some "K-other-2"
  else env_a k.

Lemma root_body_hides_credentials_witness :
  root_body env_a = root_body env_b /\ get_root env_a = get_root env_b.
Proof.
  apply (root_body_hides_credentials env_a env_b).
  - intros k H1 H2. unfold env_b.
    destruct (String.eqb_spec k "DESCOPE_PROJECT_ID"); [contradiction |].
    destruct (String.eqb_spec k "DESCOPE_MANAGEMENT_KEY"); [contradiction |].
    reflexivity.
  - reflexivity.
  - reflexivity.
  - reflexivity.
  - reflexivity.
Defined.

End RootFacts.

(* ================================================================= *)
(** ** Proofs: [makeNWSRequest] *)

Module NwsFacts.
Import Nws.

(** C9: [makeNWSRequest] always returns normally: the parsed JSON when
    [fetch] resolves with an ok response whose body parses, and [null]
    for a non-ok status, a rejected [fetch] or a body that does not
    parse. *)
Theorem makeNWSRequest_total
  (fetch : string -> list (string * string) -> exc response) (url : string) :
  makeNWSRequest fetch url =
    Normal (match fetch url nws_headers with
            | Normal resp =>
                if ok resp then
                  match resp_json resp with
                  | Normal v => Some v
                  | Thrown _ => None
                  end
                else None
            | Thrown _ => None
            end).
Proof.
  unfold makeNWSRequest, try_catch, bind, ret, throw.
  destruct (fetch url nws_headers) as [resp | e]; [| reflexivity].
  destruct (ok resp); simpl; [| reflexivity].
  destruct (resp_json resp); reflexivity.
Qed.

(** The value that [makeNWSRequest] resolves to, by cases on [fetch]. *)
Lemma makeNWSRequest_eq
  (fetch : string -> list (string * string) -> exc response) (url : string) :
  makeNWSRequest fetch url =
    Normal (match fetch url nws_headers with
            | Normal resp =>
                if ok resp then
                  match resp_json resp with
                  | Normal v => Some v
                  | Thrown _ => None
                  end
                else None
            | Thrown _ => None
            end).
Proof.
  unfold makeNWSRequest, try_catch, bind, ret, throw.
  destruct (fetch url nws_headers) as [resp | e]; [| reflexivity].
  destruct (ok resp); simpl; [| reflexivity].
  destruct (resp_json resp); reflexivity.
Qed.

Lemma makeNWSRequest_never_throws fetch url e :
  makeNWSRequest fetch url <> Thrown e.
Proof. rewrite makeNWSRequest_eq. discriminate. Qed.

End NwsFacts.

(* ================================================================= *)
(** ** Proofs: [toISOString] and [/health] *)

Module IsoFacts.
Import Iso.
Local Open Scope Z_scope.

#[local] Arguments fixed : simpl never.
#[local] Arguments read_digits : simpl never.
#[local] Arguments read_year : simpl never.

(** Closes [Some (a, r) = Some (b, r)] with [a = b] by arithmetic. *)
Ltac close_pair :=
  match goal with
  | |- Some (?a, ?r) = Some (?b, ?r) => replace a with b by lia; reflexivity
  end.

Lemma digit_val_digit (q : Z) : 0 <= q <= 9 -> digit_val (digit q) = Some q.
Proof.
  intros Hq.
  assert (q = 0 \/ q = 1 \/ q = 2 \/ q = 3 \/ q = 4 \/ q = 5 \/ q = 6 \/
          q = 7 \/ q = 8 \/ q = 9) as Hc by lia.
  repeat destruct Hc as [-> | Hc]; try reflexivity; subst; reflexivity.
Qed.

Lemma read_fixed (w : nat) (n acc : Z) (rest : string) :
  0 <= n < 10 ^ Z.of_nat w ->
  read_digits w (fixed w n ++ rest) acc = Some (acc * 10 ^ Z.of_nat w + n, rest).
Proof.
  revert n acc. induction w as [| w IH]; intros n acc Hn.
  - change (Z.of_nat 0) with 0 in *. rewrite Z.pow_0_r in *.
    replace (acc * 1 + n) with acc by lia. reflexivity.
  - rewrite Nat2Z.inj_succ, Z.pow_succ_r in Hn by lia.
    set (P := 10 ^ Z.of_nat w) in *.
    assert (HP : 0 < P) by (apply Z.pow_pos_nonneg; lia).
    assert (Hq : 0 <= n / P < 10).
    { split; [apply Z.div_pos; lia |]. apply Z.div_lt_upper_bound; lia. }
    assert (Hr : 0 <= n mod P < P) by (apply Z.mod_pos_bound; lia).
    change (fixed (S w) n) with (String (digit ((n / P) mod 10)) (fixed w (n mod P))).
    rewrite Z.mod_small by lia.
    change (read_digits (S w) (String (digit (n / P)) (fixed w (n mod P) ++ rest)) acc =
            Some (acc * 10 ^ Z.of_nat (S w) + n, rest)).
    unfold read_digits; fold read_digits.
    rewrite digit_val_digit by lia.
    rewrite IH by lia.
    rewrite Nat2Z.inj_succ, Z.pow_succ_r by lia. fold P.
    pose proof (Z.div_mod n P ltac:(lia)). f_equal. f_equal. nia.
Qed.

(** The per-era facts, checked on every day of a 400-year era. *)
Definition doe_ok (doe : Z) : bool :=
  let '(yoe, m, d) := civil_of_doe doe in
  (0 <=? yoe) && (yoe <=? 399) && (1 <=? m) && (m <=? 12) && (1 <=? d) &&
  (d <=? days_in_month (yoe + (if m <=? 2 then 1 else 0)) m) &&
  (doe_of_civil yoe m d =? doe).

Fixpoint doe_ok_from (n : nat) (z : Z) : bool :=
  match n with
  | O => true
  | S n' => doe_ok z && doe_ok_from n' (z + 1)
  end.

Lemma doe_ok_from_spec (n : nat) (z k : Z) :
  doe_ok_from n z = true -> z <= k < z + Z.of_nat n -> doe_ok k = true.
Proof.
  revert z. induction n as [| n IH]; intros z H Hk; simpl in *; [lia |].
  apply andb_true_iff in H as [H1 H2].
  destruct (Z.eq_dec k z) as [-> | Hne]; [exact H1 |].
  apply (IH (z + 1)); [exact H2 | lia].
Qed.

Lemma all_doe_ok : doe_ok_from (Pos.to_nat 146097) 0 = true.
Proof. vm_compute. reflexivity. Qed.

Lemma doe_ok_range (doe : Z) : 0 <= doe < 146097 -> doe_ok doe = true.
Proof.
  intros H. apply (doe_ok_from_spec _ 0 doe all_doe_ok).
  rewrite positive_nat_Z. lia.
Qed.

Lemma leap_period (y k : Z) : leap (y + k * 400) = leap y.
Proof.
  unfold leap.
  replace (y + k * 400) with (y + (k * 100) * 4) at 1 by lia.
  rewrite Z.mod_add by lia.
  replace (y + k * 400) with (y + (k * 4) * 100) at 1 by lia.
  rewrite Z.mod_add by lia.
  rewrite Z.mod_add by lia. reflexivity.
Qed.

Lemma days_in_month_period (y k m : Z) :
  days_in_month (y + k * 400) m = days_in_month y m.
Proof. unfold days_in_month. rewrite leap_period. reflexivity. Qed.

Lemma days_in_month_le_31 (y m : Z) : days_in_month y m <= 31.
Proof.
  unfold days_in_month.
  destruct (m =? 2), (leap y), ((m =? 4) || (m =? 6) || (m =? 9) || (m =? 11)); lia.
Qed.

(** The calendar: every day number has a real date, which maps back to it. *)
Lemma civil_from_days_spec (z : Z) :
  let '(y, m, d) := civil_from_days z in
  1 <= m <= 12 /\ 1 <= d <= days_in_month y m /\ days_from_civil y m d = z /\
  (z + 719468) / 146097 * 400 <= y <= (z + 719468) / 146097 * 400 + 400.
Proof.
  unfold civil_from_days.
  set (era := (z + 719468) / 146097).
  set (doe := (z + 719468) mod 146097).
  assert (Hdoe : 0 <= doe < 146097) by (apply Z.mod_pos_bound; lia).
  assert (Hz : z + 719468 = 146097 * era + doe) by (apply Z.div_mod; lia).
  pose proof (doe_ok_range doe Hdoe) as Hok. unfold doe_ok in Hok.
  destruct (civil_of_doe doe) as [[yoe m] d].
  rewrite !andb_true_iff, !Z.leb_le, Z.eqb_eq in Hok.
  destruct Hok as [[[[[[H1 H2] H3] H4] H5] H6] H7].
  set (adj := if m <=? 2 then 1 else 0) in *.
  assert (Hadj : 0 <= adj <= 1) by (unfold adj; destruct (m <=? 2); lia).
  split; [lia |]. split.
  { replace (yoe + era * 400 + adj) with ((yoe + adj) + era * 400) by lia.
    rewrite days_in_month_period. lia. }
  split; [| lia].
  unfold days_from_civil. fold adj.
  replace (yoe + era * 400 + adj - adj) with (yoe + era * 400) by lia.
  assert (He : (yoe + era * 400) / 400 = era).
  { rewrite Z.div_add by lia. rewrite Z.div_small by lia. lia. }
  rewrite He. replace (yoe + era * 400 - era * 400) with yoe by lia.
  rewrite H7. lia.
Qed.

(** The fields of the time of day. *)
Lemma time_fields (t : Z) :
  t = t / msPerDay * msPerDay + (t / 3600000) mod 24 * 3600000 +
      (t / 60000) mod 60 * 60000 + (t / 1000) mod 60 * 1000 + t mod 1000.
Proof.
  unfold msPerDay.
  assert (E1 : t / 60000 = t / 1000 / 60) by (rewrite Z.div_div by lia; reflexivity).
  assert (E2 : t / 3600000 = t / 60000 / 60) by (rewrite Z.div_div by lia; reflexivity).
  assert (E3 : t / 86400000 = t / 3600000 / 24) by (rewrite Z.div_div by lia; reflexivity).
  pose proof (Z.div_mod t 1000 ltac:(lia)) as H0.
  pose proof (Z.div_mod (t / 1000) 60 ltac:(lia)) as H1.
  pose proof (Z.div_mod (t / 60000) 60 ltac:(lia)) as H2.
  pose proof (Z.div_mod (t / 3600000) 24 ltac:(lia)) as H3.
  rewrite <- E1 in H1. rewrite <- E2 in H2. rewrite E3. lia.
Qed.

Lemma read_year_digit (q : Z) (s : string) :
  0 <= q <= 9 -> read_year (String (digit q) s) = read_digits 4 (String (digit q) s) 0.
Proof.
  intros Hq.
  assert (q = 0 \/ q = 1 \/ q = 2 \/ q = 3 \/ q = 4 \/ q = 5 \/ q = 6 \/
          q = 7 \/ q = 8 \/ q = 9) as Hc by lia.
  repeat destruct Hc as [-> | Hc]; try reflexivity; subst; reflexivity.
Qed.

Lemma read_year_str (y : Z) (rest : string) :
  -1000000 < y < 1000000 -> read_year (year_str y ++ rest) = Some (y, rest).
Proof.
  intros Hy. unfold year_str.
  destruct ((0 <=? y) && (y <=? 9999)) eqn:Hs.
  - rewrite andb_true_iff, !Z.leb_le in Hs.
    assert (Hq : 0 <= (y / 10 ^ Z.of_nat 3) mod 10 <= 9)
      by (pose proof (Z.mod_pos_bound (y / 10 ^ Z.of_nat 3) 10); lia).
    change (fixed 4 y) with
      (String (digit ((y / 10 ^ Z.of_nat 3) mod 10)) (fixed 3 (y mod 10 ^ Z.of_nat 3))).
    transitivity (read_digits 4 (fixed 4 y ++ rest) 0).
    + apply read_year_digit, Hq.
    + rewrite read_fixed by (simpl; lia). close_pair.
  - rewrite andb_false_iff, !Z.leb_gt in Hs.
    destruct (y <? 0) eqn:Hn.
    + rewrite Z.ltb_lt in Hn.
      change (("-" ++ fixed 6 (Z.abs y)) ++ rest) with (String "-" (fixed 6 (Z.abs y) ++ rest)).
      unfold read_year. cbv beta iota.
      rewrite read_fixed by (simpl; lia). cbv beta iota. close_pair.
    + rewrite Z.ltb_ge in Hn.
      change (("+" ++ fixed 6 (Z.abs y)) ++ rest) with (String "+" (fixed 6 (Z.abs y) ++ rest)).
      unfold read_year. cbv beta iota.
      rewrite read_fixed by (simpl; lia). close_pair.
Qed.


Lemma step_year (y : Z) (X : string) {B} (k : Z * string -> option B) :
  -1000000 < y < 1000000 -> obind (read_year (year_str y ++ X)) k = k (y, X).
Proof. intros H. rewrite read_year_str by exact H. reflexivity. Qed.

Lemma step_sep (c : ascii) (X : string) {B} (k : string -> option B) :
  obind (expect c (String c "" ++ X)) k = k X.
Proof. unfold obind, expect. simpl. rewrite Ascii.eqb_refl. reflexivity. Qed.

Lemma step_digits (w : nat) (n : Z) (X : string) {B} (k : Z * string -> option B) :
  0 <= n < 10 ^ Z.of_nat w -> obind (read_digits w (fixed w n ++ X) 0) k = k (n, X).
Proof.
  intros H. rewrite read_fixed by exact H. unfold obind.
  replace (0 * 10 ^ Z.of_nat w + n) with n by lia. reflexivity.
Qed.

Definition max_time : Z := 8640000000000000.

(** [toISOString] writes a well-formed timestamp, and the timestamp
    denotes the time value it was made from. *)
Lemma toISOString_parses (t : Z) :
  - max_time <= t <= max_time -> parse_iso (toISOString t) = Some t.
Proof.
  unfold max_time. intros Ht.
  pose proof (civil_from_days_spec (t / msPerDay)) as Hspec.
  pose proof (time_fields t) as Htf.
  unfold toISOString.
  destruct (civil_from_days (t / msPerDay)) as [[y m] d] eqn:Hc.
  destruct Hspec as [Hm [Hd [Hback Hy]]].
  pose proof (days_in_month_le_31 y m).
  assert (Hday : -100000000 <= t / msPerDay <= 100000000).
  { unfold msPerDay. pose proof (Z.div_mod t 86400000 ltac:(lia)).
    pose proof (Z.mod_pos_bound t 86400000 ltac:(lia)). lia. }
  assert (Hera : -700 <= (t / msPerDay + 719468) / 146097 <= 700).
  { pose proof (Z.div_mod (t / msPerDay + 719468) 146097 ltac:(lia)).
    pose proof (Z.mod_pos_bound (t / msPerDay + 719468) 146097 ltac:(lia)). lia. }
  set (h := (t / 3600000) mod 24) in *.
  set (mi := (t / 60000) mod 60) in *.
  set (sec := (t / 1000) mod 60) in *.
  set (ms := t mod 1000) in *.
  assert (0 <= h < 24) by (apply Z.mod_pos_bound; lia).
  assert (0 <= mi < 60) by (apply Z.mod_pos_bound; lia).
  assert (0 <= sec < 60) by (apply Z.mod_pos_bound; lia).
  assert (0 <= ms < 1000) by (apply Z.mod_pos_bound; lia).
  unfold parse_iso.
  rewrite step_year by lia. cbv beta iota.
  rewrite step_sep. rewrite step_digits by (simpl; lia). cbv beta iota.
  rewrite step_sep. rewrite step_digits by (simpl; lia). cbv beta iota.
  rewrite step_sep. rewrite step_digits by (simpl; lia). cbv beta iota.
  rewrite step_sep. rewrite step_digits by (simpl; lia). cbv beta iota.
  rewrite step_sep. rewrite step_digits by (simpl; lia). cbv beta iota.
  rewrite step_sep. rewrite step_digits by (simpl; lia). cbv beta iota.
  change (expect "Z" "Z") with (Some "").
  cbv beta iota delta [obind].
  change (String.eqb "" "") with true.
  replace (1 <=? m) with true by (symmetry; apply Z.leb_le; lia).
  replace (m <=? 12) with true by (symmetry; apply Z.leb_le; lia).
  replace (1 <=? d) with true by (symmetry; apply Z.leb_le; lia).
  replace (d <=? days_in_month y m) with true by (symmetry; apply Z.leb_le; lia).
  replace (h <? 24) with true by (symmetry; apply Z.ltb_lt; lia).
  replace (mi <? 60) with true by (symmetry; apply Z.ltb_lt; lia).
  replace (sec <? 60) with true by (symmetry; apply Z.ltb_lt; lia).
  cbv beta iota delta [andb].
  rewrite Hback. f_equal. lia.
Qed.

End IsoFacts.

Module HealthFacts.
Import Iso IsoFacts Health ResFacts.
Local Open Scope Z_scope.

(** C8: [GET /health] answers 200 with one JSON body whose [status] is
    ["ok"] and whose [timestamp] is a well-formed ISO 8601 UTC timestamp
    (it parses, with every field in range) denoting the current time
    [now]; the handler writes that response and does nothing else (it is
    a function of [now] and [res] alone). *)
Theorem get_health_ok (now : Z) (hs : list (string * string))
  (Hnow : - max_time <= now <= max_time) :
  let r := get_health now (start hs) in
  statusCode r = 200 /\ terminal_writes r = 1%nat /\
  (exists hs', log r = [WHead 200 hs'; WEnd (Some (health_body now))]) /\
  opt_get (health_body now) "status" = JStr "ok" /\
  exists ts, opt_get (health_body now) "timestamp" = JStr ts /\ parse_iso ts = Some now.
Proof.
  cbv zeta. split; [reflexivity |]. split; [reflexivity |].
  split; [eexists; reflexivity |]. split; [reflexivity |].
  exists (toISOString now). split; [reflexivity |].
  apply toISOString_parses, Hnow.
Qed.

Lemma get_health_ok_witness :
  let r := get_health 1700000000000 (start []) in
  statusCode r = 200 /\ terminal_writes r = 1%nat /\
  (exists hs', log r = [WHead 200 hs'; WEnd (Some (health_body 1700000000000))]) /\
  opt_get (health_body 1700000000000) "status" = JStr "ok" /\
  exists ts, opt_get (health_body 1700000000000) "timestamp" = JStr ts /\
             parse_iso ts = Some 1700000000000.
Proof. apply (get_health_ok 1700000000000 []). unfold max_time. lia. Defined.

End HealthFacts.

(* ================================================================= *)
(** ** Proofs: the Express stack *)

Module ExpressFacts.
Import Express.
Local Open Scope list_scope.

(** Dispatch through a prefix of the stack: the response, the trace, and
    whether the last layer called [next()]. *)
Fixpoint run_partial (ls : list layer) (req : request) (r : res)
  : res * list (string * bool) * bool :=
  match ls with
  | [] => (r, [], true)
  | l :: ls' =>
      if layer_matches l req then
        let '(r', nx) := layer_handle l req r in
        if nx then
          let '(r'', tr, p) := run_partial ls' req r' in (r'', (layer_name l, true) :: tr, p)
        else (r', [(layer_name l, false)], false)
      else run_partial ls' req r
  end.

Lemma run_app (ls1 ls2 : list layer) (req : request) (r : res) :
  run (ls1 ++ ls2) req r =
  let '(r1, tr1, p) := run_partial ls1 req r in
  if p then let '(r2, tr2) := run ls2 req r1 in (r2, tr1 ++ tr2) else (r1, tr1).
Proof.
  revert r. induction ls1 as [| l ls1 IH]; intros r; simpl.
  - destruct (run ls2 req r); reflexivity.
  - destruct (layer_matches l req); [| apply IH].
    destruct (layer_handle l req r) as [r' nx].
    destruct nx; [| reflexivity].
    rewrite IH. destruct (run_partial ls1 req r') as [[r1 tr1] p].
    destruct p; [| reflexivity].
    destruct (run ls2 req r1); reflexivity.
Qed.



Lemma run_cons (l : layer) (ls : list layer) (req : request) (r : res) :
  run (l :: ls) req r =
  if layer_matches l req then
    let '(r', nx) := layer_handle l req r in
    if nx then let '(r'', tr) := run ls req r' in (r'', (layer_name l, true) :: tr)
    else (r', [(layer_name l, false)])
  else run ls req r.
Proof. reflexivity. Qed.

(** The layers of [app] before and after the bearer middleware. *)
Definition app_pre (D : deps) : list layer := firstn 5 (app D).
Definition bearer_layer (D : deps) : layer :=
  mk_layer "bearerAuth" (fun req => use_match "/mcp" (req_path req)) (d_bearerAuth D).
Definition app_post (D : deps) : list layer := skipn 6 (app D).

Lemma app_split (D : deps) : app D = app_pre D ++ bearer_layer D :: app_post D.
Proof. reflexivity. Qed.



Lemma set_headers_unsent (hs : list (string * string)) (r : res) :
  headersSent r = false -> headersSent (set_headers hs r) = false.
Proof.
  unfold set_headers, apply_ops. revert r.
  induction hs as [| [k v] hs IH]; intros r H; simpl; auto.
  apply IH. simpl. rewrite H. reflexivity.
Qed.


Lemma bearer_in_app (D : deps) (l : layer) :
  In l (app D) -> layer_name l = "bearerAuth" -> l = bearer_layer D.
Proof.
  simpl. intros H Hn.
  repeat (destruct H as [<- | H]; [try discriminate Hn; reflexivity |]). destruct H.
Qed.


(** A request that no static file answers. *)
Definition not_static (D : deps) (req : request) : Prop :=
  match req_method req with
  | GET | HEAD => d_public D (req_path req) = None
  | _ => True
  end.

Lemma app_pre_passes (D : deps) (req : request) (Hb : req_body_error req = None)
  (Hm : req_method req <> OPTIONS) (Hs : not_static D req) :
  run_partial (app_pre D) req (start []) =
  let '(r2, nx) := d_authRouter D req (fst (cors_app req (start []))) in
  (r2, [("jsonParser", true); ("serveStatic", true); ("corsMiddleware", true); ("authRouter", nx)], nx).
Proof.
  unfold not_static in Hs.
  unfold app_pre, app, firstn, run_partial, use_all, route, layer_matches, layer_handle,
    layer_name, json_parser, serve_static, cors_app, method_match.
  rewrite Hb. destruct (req_method req); try congruence;
    try (match type of Hs with _ = None => rewrite Hs end); simpl;
    destruct (d_authRouter D req _) as [r2 []]; reflexivity.
Qed.


Lemma cors_app_unsent (req : request) :
  req_method req <> OPTIONS -> headersSent (fst (cors_app req (start []))) = false.
Proof.
  intros Hm. unfold cors_app.
  destruct (req_method req); try congruence; simpl; apply set_headers_unsent; reflexivity.
Qed.






Lemma prefix_app (s1 s2 : string) : String.prefix s1 s2 = true -> exists rest, s2 = (s1 ++ rest)%string.
Proof.
  revert s2. induction s1 as [| a s1 IH]; intros s2 H.
  - exists s2. reflexivity.
  - destruct s2 as [| b s2]; [discriminate |].
    simpl in H. destruct (ascii_dec a b) as [<- |]; [| discriminate].
    destruct (IH s2 H) as [rest ->]. exists rest. reflexivity.
Qed.

Lemma use_match_mcp (path : string) :
  use_match "/mcp" path = true -> exists rest, lower path = ("/mcp" ++ rest)%string.
Proof.
  unfold use_match, route_match. cbn [lower].
  change (lower_ascii "/") with "/"%char. change (lower_ascii "m") with "m"%char.
  change (lower_ascii "c") with "c"%char. change (lower_ascii "p") with "p"%char.
  intros H. apply orb_true_iff in H as [H | H]; [apply orb_true_iff in H as [H | H] |].
  - apply String.eqb_eq in H. exists "". rewrite H. reflexivity.
  - apply String.eqb_eq in H. exists "/". rewrite H. reflexivity.
  - apply prefix_app in H as [rest ->]. exists ("/" ++ rest)%string. reflexivity.
Qed.

Lemma guide_router_passes_mcp (req : request) (r : res) :
  use_match "/mcp" (req_path req) = true -> DescopeGuide.auth_router req r = (r, true).
Proof.
  intros H. destruct (use_match_mcp _ H) as [rest Hl].
  unfold DescopeGuide.auth_router, route_match. rewrite Hl. simpl.
  rewrite !andb_false_r. reflexivity.
Qed.

Lemma guide_bearer_rejects (req : request) (r : res) :
  header "authorization" req = None -> headersSent r = false ->
  exists r', DescopeGuide.bearer_auth req r = (r', false) /\ statusCode r' = 401 /\
             exists v, In ("WWW-Authenticate", v) (headers r').
Proof.
  intros Hh Hs. unfold DescopeGuide.bearer_auth. rewrite Hh.
  eexists. split; [reflexivity |].
  destruct r as [st hs sent f l]; simpl in Hs; subst sent.
  unfold json, status; simpl. destruct f; simpl; (split; [reflexivity |]);
    eexists; simpl; right; left; reflexivity.
Qed.





(** C6: on [GET /.well-known/oauth-authorization-server] with a body
    that [express.json()] does not reject, when the auth
    router mounted at line 262 answers the request (it serves the
    metadata, as the SDK guide says), the handler registered after it
    (lines 271-278), which sets the three CORS headers and calls
    [next()], never runs: the response is the router's answer to the
    request as the global [cors] middleware left it. *)
Theorem well_known_cors_handler_never_runs (D : deps) (req : request)
  (Hbody : req_body_error req = None) (Hget : req_method req = GET)
  (Hstatic : d_public D (req_path req) = None)
  (Hanswer : forall r, snd (d_authRouter D req r) = false) :
  let '(r, tr) := handle D req in
  r = fst (d_authRouter D req (fst (cors_app req (start [])))) /\
  forall nb, ~ In ("GET /.well-known/oauth-authorization-server", nb) tr.
Proof.
  unfold handle. rewrite app_split, run_app.
  assert (Hm : req_method req <> OPTIONS) by congruence.
  assert (Hs : not_static D req) by (unfold not_static; rewrite Hget; exact Hstatic).
  rewrite (app_pre_passes D req Hbody Hm Hs).
  specialize (Hanswer (fst (cors_app req (start [])))).
  destruct (d_authRouter D req (fst (cors_app req (start [])))) as [r2 nx].
  simpl in Hanswer. subst nx.
  split; [reflexivity |].
  intros nb H. simpl in H. repeat destruct H as [H | H]; try discriminate. exact H.
Qed.

(** The discovery request, without an [Origin] header. *)
Definition req_metadata : request :=
  mk_req GET "/.well-known/oauth-authorization-server" [] JNull.

Lemma well_known_cors_handler_never_runs_witness :
  let '(r, tr) := handle DescopeGuide.guide_deps req_metadata in
  r = fst (d_authRouter DescopeGuide.guide_deps req_metadata
             (fst (cors_app req_metadata (start [])))) /\
  forall nb, ~ In ("GET /.well-known/oauth-authorization-server", nb) tr.
Proof.
  apply (well_known_cors_handler_never_runs DescopeGuide.guide_deps req_metadata).
  - reflexivity.
  - reflexivity.
  - reflexivity.
  - intros r. reflexivity.
Defined.

(** With the router of the SDK guide, the metadata response carries none
    of the three headers that the handler at lines 271-278 sets. *)
Lemma well_known_guide_headers :
  let r := fst (handle DescopeGuide.guide_deps req_metadata) in
  log r <> [] /\
  assoc_first "Access-Control-Allow-Origin" (headers r) = None /\
  assoc_first "Access-Control-Allow-Methods" (headers r) = None /\
  assoc_first "Access-Control-Allow-Headers" (headers r) = None.
Proof. vm_compute. repeat split; discriminate. Qed.

End ExpressFacts.

(* ================================================================= *)
(** ** Proofs: the shared transport *)

Module SharedTransportFacts.
Import SharedTransport.
Local Open Scope list_scope.

(** A transport built without a session generator keeps that shape. *)
Definition stateless (t : transport) : Prop :=
  sessionIdGenerator t = None /\ sessionId t = None.

Definition no_session_header (out : list output) : Prop :=
  forall n hs s, In (OHead n hs) out -> ~ In ("mcp-session-id", s) hs.

Lemma no_session_header_app (o1 o2 : list output) :
  no_session_header o1 -> no_session_header o2 -> no_session_header (o1 ++ o2).
Proof.
  intros H1 H2 n hs s Hin. apply in_app_or in Hin as [Hin | Hin]; eauto.
Qed.

Lemma step_stateless (t : transport) (e : event) :
  stateless t -> stateless (fst (step t e)) /\ no_session_header (snd (step t e)).
Proof.
  intros [Hg Hs]. destruct e as [| n id init | id |]; simpl.
  - split; [split; assumption |]. intros n hs s [].
  - unfold handle_post. rewrite Hg. simpl.
    assert (Hsid : (if init then None else sessionId t) = None)
      by (destruct init; [reflexivity | exact Hs]).
    rewrite Hsid. split; [split; reflexivity |].
    intros n' hs s [Hh | []]. injection Hh as _ <-.
    simpl. intuition discriminate.
  - unfold send_answer. destruct (lookup_id id (requestToStreamMapping t)) as [n |].
    + simpl. split; [split; assumption |].
      intros n' hs s Hin. destruct (existsb (Nat.eqb n) (streamMapping t));
        simpl in Hin; intuition discriminate.
    + simpl. split; [split; assumption |]. intros n' hs s [H | []]. discriminate.
  - simpl. split; [split; assumption |]. intros n hs s [H | []]. discriminate.
Qed.

Lemma run_from_stateless (es : list event) (t : transport) :
  stateless t -> stateless (fst (run_from t es)) /\ no_session_header (snd (run_from t es)).
Proof.
  revert t. induction es as [| e es IH]; intros t Ht; simpl.
  - split; [exact Ht |]. intros n hs s [].
  - destruct (step_stateless t e Ht) as [H1 Ho1].
    destruct (step t e) as [t1 o1] eqn:E1. simpl in H1, Ho1.
    destruct (IH t1 H1) as [H2 Ho2].
    destruct (run_from t1 es) as [t2 o2]. simpl in *.
    split; [exact H2 | apply no_session_header_app; assumption].
Qed.

(** The transport is built with [sessionIdGenerator: undefined]: over
    any life of the server (connection, requests, answers, shutdown) no
    session id is ever stored and no response head carries
    [mcp-session-id]. *)
Theorem stateless_transport_no_session_id :
  forall es, let '(t, out) := run es in sessionId t = None /\ no_session_header out.
Proof.
  intros es. unfold run.
  destruct (run_from_stateless es transport0) as [[_ Hs] Ho]; [split; reflexivity |].
  destruct (run_from transport0 es) as [t out]. split; assumption.
Qed.

(** C5 (code bug): requests are not handled independently, since all of
    them go through the one module-level transport.  Alone, HTTP
    request 1 gets the answer to its JSON-RPC id 7; when HTTP request 2
    with the same id arrives before that answer, the answer goes to
    request 2 and request 1 never receives one. *)
Lemma stateless_transport_requests_interfere :
  In (ODeliver 1 7) (snd (run [Connect; Post 1 7 false; Answer 7])) /\
  let out := snd (run [Connect; Post 1 7 false; Post 2 7 false; Answer 7; Answer 7]) in
  In (ODeliver 2 7) out /\ ~ (exists id, In (ODeliver 1 id) out).
Proof.
  vm_compute. split; [tauto |]. split; [tauto |].
  intros [id H]. intuition congruence.
Qed.

(** C7 (code bug): the transport shared by all [POST /mcp] requests is
    mutable state written by each of them after startup.  After two
    concurrent requests it holds the routing of both, and the [SIGINT]
    handler clears it. *)
Lemma shared_transport_mutated_by_requests :
  requestToStreamMapping (fst (run [Connect])) = [] /\
  requestToStreamMapping (fst (run [Connect; Post 1 7 false; Post 2 8 false]))
    = [(8, 2%nat); (7, 1%nat)] /\
  streamMapping (fst (run [Connect; Post 1 7 false; Post 2 8 false])) = [2%nat; 1%nat] /\
  streamMapping (fst (run [Connect; Post 1 7 false; Post 2 8 false; Sigint])) = [].
Proof. vm_compute. repeat split. Qed.

End SharedTransportFacts.

(* ================================================================= *)
(** ** Proofs: the weather tools *)

Module WeatherFacts.
Import Nws NwsFacts Weather.
Local Open Scope string_scope.

(** *** Lines of a text *)










(** *** Property access *)

Lemma get_obj (fs : list (string * value)) (k : string) :
  get (JObj fs) k = Ok (opt_get (JObj fs) k).
Proof. reflexivity. Qed.

Lemma get_not_nullish (v : value) (k : string) :
  nullish v = false -> String.eqb k "length" = false -> get v k = Ok (opt_get v k).
Proof. intros Hn Hk. destruct v; simpl in *; try discriminate; try rewrite Hk; reflexivity. Qed.

Lemma truthy_not_nullish (v : value) : truthy v = true -> nullish v = false.
Proof. destruct v; simpl; congruence. Qed.

Lemma upper_ascii_idem (c : ascii) : upper_ascii (upper_ascii c) = upper_ascii c.
Proof. destruct c as [[] [] [] [] [] [] [] []]; reflexivity. Qed.

Lemma upper_idem (s : string) : upper (upper s) = upper s.
Proof. induction s as [| c s IH]; simpl; [reflexivity | rewrite upper_ascii_idem, IH; reflexivity]. Qed.

Lemma nws_value_eq (fetch : string -> list (string * string) -> exc response) (url : string) :
  nws_value (makeNWSRequest fetch url) =
  Ok (match fetch url nws_headers with
      | Normal resp =>
          if ok resp then match resp_json resp with Normal v => v | Thrown _ => JNull end
          else JNull
      | Thrown _ => JNull
      end).
Proof.
  rewrite makeNWSRequest_eq. unfold nws_value.
  destruct (fetch url nws_headers) as [resp |]; [| reflexivity].
  destruct (ok resp); [| reflexivity]. destruct (resp_json resp); reflexivity.
Qed.

(** What the [fetch] at a URL gives when the request fails: it rejects,
    answers a non-2xx status, answers a body that is not JSON, or a
    JSON value that is falsy. *)
Definition nws_fails (r : exc response) : Prop :=
  match r with
  | Thrown _ => True
  | Normal resp =>
      ok resp = false \/ (exists e, resp_json resp = Thrown e) \/
      (exists v, resp_json resp = Normal v /\ truthy v = false)
  end.

(** The fetch answers the JSON value [v] with a 2xx status. *)
Definition nws_answers (r : exc response) (v : value) : Prop :=
  exists resp, r = Normal resp /\ ok resp = true /\ resp_json resp = Normal v.

Lemma nws_fails_value (r : exc response) :
  nws_fails r ->
  truthy (match r with
          | Normal resp =>
              if ok resp then match resp_json resp with Normal v => v | Thrown _ => JNull end
              else JNull
          | Thrown _ => JNull
          end) = false.
Proof.
  destruct r as [resp |]; simpl; [| reflexivity].
  intros [H | [[e H] | [v [H Hv]]]]; rewrite ?H.
  - reflexivity.
  - destruct (ok resp); reflexivity.
  - destruct (ok resp); [exact Hv | reflexivity].
Qed.

Lemma nws_answers_value (r : exc response) (v : value) :
  nws_answers r v ->
  (match r with
   | Normal resp =>
       if ok resp then match resp_json resp with Normal v => v | Thrown _ => JNull end
       else JNull
   | Thrown _ => JNull
   end) = v.
Proof. intros [resp [-> [Hok Hj]]]. rewrite Hok, Hj. reflexivity. Qed.

(** *** [formatAlert] and [get-alerts] *)









(** [get-alerts] does not depend on the case of the state code. *)
Theorem get_alerts_case_insensitive fetch (state : string) :
  get_alerts fetch (upper state) = get_alerts fetch state.
Proof. unfold get_alerts. rewrite upper_idem. reflexivity. Qed.

(** For an ASCII state code, [get-alerts] requests one URL only,
    [https://api.weather.gov/alerts?area=] followed by the upper-cased
    state: two [fetch]es that agree there give the same result. *)
Theorem get_alerts_one_request (f g : string -> list (string * string) -> exc response)
  (state : string) (Ha : ascii_only state = true)
  (H : forall h, f (alerts_url state) h = g (alerts_url state) h) :
  get_alerts f state = get_alerts g state.
Proof. unfold get_alerts. cbv zeta. rewrite !nws_value_eq. unfold alerts_url in H. rewrite H. reflexivity. Qed.

(** For an ASCII state code, when the alerts request fails (network
    error, non-2xx status, body that is not JSON, or a falsy JSON
    value), [get-alerts] answers "Failed to retrieve alerts data". *)
Theorem get_alerts_failure fetch (state : string) (Ha : ascii_only state = true)
  (H : nws_fails (fetch (alerts_url state) nws_headers)) :
  get_alerts fetch state = Ok "Failed to retrieve alerts data".
Proof.
  unfold get_alerts. cbv zeta. rewrite nws_value_eq. unfold alerts_url in H.
  cbn [rbind]. rewrite (nws_fails_value _ H). reflexivity.
Qed.

(** For an ASCII state code, when the alerts data has no [features]
    (absent, falsy) or an empty array of them, [get-alerts] answers
    "No active alerts for" the upper-cased state. *)
Theorem get_alerts_no_features fetch (state : string) (v : value)
  (Ha : ascii_only state = true)
  (Hv : nws_answers (fetch (alerts_url state) nws_headers) v) (Ht : truthy v = true)
  (Hf : truthy (opt_get v "features") = false \/ opt_get v "features" = JArr []) :
  get_alerts fetch state = Ok ("No active alerts for " ++ upper state).
Proof.
  unfold get_alerts. cbv zeta. rewrite nws_value_eq. unfold alerts_url in Hv.
  rewrite (nws_answers_value _ _ Hv). cbn [rbind]. rewrite Ht. cbn [negb].
  rewrite get_not_nullish by (reflexivity || exact (truthy_not_nullish _ Ht)).
  cbn [rbind]. unfold js_or.
  destruct Hf as [Hf | Hf]; rewrite Hf; [| destruct (truthy (JArr []))]; reflexivity.
Qed.


(** *** Falsy properties print as absent ones *)

Definition remove_key (k : string) (ps : list (string * value)) : list (string * value) :=
  filter (fun kv => negb (String.eqb (fst kv) k)) ps.

Lemma assoc_last_app (k : string) (l1 l2 : list (string * value)) :
  assoc_last k (l1 ++ l2) =
  match assoc_last k l2 with Some w => Some w | None => assoc_last k l1 end.
Proof.
  induction l1 as [| [k' v] l1 IH]; simpl.
  - destruct (assoc_last k l2); reflexivity.
  - rewrite IH. destruct (assoc_last k l2); reflexivity.
Qed.

Lemma assoc_last_remove (j k : string) (ps : list (string * value)) :
  assoc_last j (remove_key k ps) = if String.eqb j k then None else assoc_last j ps.
Proof.
  induction ps as [| [k' v] ps IH]; simpl; [destruct (String.eqb j k); reflexivity |].
  destruct (String.eqb_spec k' k) as [-> | Hne]; simpl.
  - rewrite IH. destruct (String.eqb_spec j k) as [-> |]; [reflexivity |].
    destruct (assoc_last j ps); reflexivity.
  - rewrite IH. destruct (String.eqb_spec j k) as [-> | Hjk].
    + destruct (String.eqb_spec k k'); [congruence | reflexivity].
    + reflexivity.
Qed.

Lemma falsy_field (j k : string) (ps : list (string * value)) (v d : value) :
  truthy v = false ->
  js_or (opt_get (JObj (ps ++ [(k, v)])) j) d = js_or (opt_get (JObj (remove_key k ps)) j) d.
Proof.
  intros Hv. unfold opt_get. rewrite assoc_last_app, assoc_last_remove. simpl.
  destruct (String.eqb_spec j k) as [-> |]; unfold js_or; [rewrite Hv; reflexivity |].
  reflexivity.
Qed.

Lemma opt_get_single (k : string) (w : value) : opt_get (JObj [(k, w)]) k = w.
Proof. unfold opt_get. simpl. rewrite String.eqb_refl. reflexivity. Qed.

(** A property of an alert that is falsy ([null], [false], [0], [""])
    prints exactly as if it were absent. *)
Theorem formatAlert_falsy_as_missing (ps : list (string * value)) (k : string) (v : value)
  (Hv : truthy v = false) :
  formatAlert (JObj [("properties", JObj (ps ++ [(k, v)]))]) =
  formatAlert (JObj [("properties", JObj (remove_key k ps))]).
Proof.
  unfold formatAlert. rewrite !get_obj. cbn [rbind]. rewrite !opt_get_single.
  repeat (rewrite get_obj; cbn [rbind]).
  unfold show_or. rewrite !(falsy_field _ k ps v _ Hv). reflexivity.
Qed.

(** A field of a forecast period that is falsy prints exactly as if it
    were absent: a temperature of 0 prints as "Unknown". *)
Theorem format_period_falsy_as_missing (ps : list (string * value)) (k : string) (v : value)
  (Hv : truthy v = false) :
  format_period (JObj (ps ++ [(k, v)])) = format_period (JObj (remove_key k ps)).
Proof.
  unfold format_period. repeat (rewrite get_obj; cbn [rbind]).
  unfold show_or. rewrite !(falsy_field _ k ps v _ Hv). reflexivity.
Qed.

(** *** [get-forecast] *)




Section ForecastFacts.
Variable number : Type.
Variable toFixed4 : number -> string.
Variable num_str : number -> string.

(** When the grid-point request fails, [get-forecast] answers the
    message that names the coordinates, and makes no other request. *)
Theorem get_forecast_points_failure fetch (latitude longitude : number)
  (H : nws_fails (fetch (points_url number toFixed4 latitude longitude) nws_headers)) :
  get_forecast number toFixed4 num_str fetch latitude longitude =
  Ok ("Failed to retrieve grid point data for coordinates: " ++ num_str latitude ++ ", "
      ++ num_str longitude
      ++ ". This location may not be supported by the NWS API (only US locations are supported).").
Proof.
  unfold get_forecast. cbv zeta. rewrite nws_value_eq. unfold points_url in H.
  cbn [rbind]. rewrite (nws_fails_value _ H). reflexivity.
Qed.

(** When the grid-point data carries no forecast URL
    ([properties.forecast] absent or falsy), [get-forecast] answers
    "Failed to get forecast URL from grid point data". *)
Theorem get_forecast_no_forecast_url fetch (latitude longitude : number) (v : value)
  (Hv : nws_answers (fetch (points_url number toFixed4 latitude longitude) nws_headers) v)
  (Ht : truthy v = true)
  (Hf : truthy (opt_get (opt_get v "properties") "forecast") = false) :
  get_forecast number toFixed4 num_str fetch latitude longitude =
  Ok "Failed to get forecast URL from grid point data".
Proof.
  unfold get_forecast. cbv zeta. rewrite nws_value_eq. unfold points_url in Hv.
  rewrite (nws_answers_value _ _ Hv). cbn [rbind]. rewrite Ht. cbn [negb].
  rewrite get_not_nullish by (reflexivity || exact (truthy_not_nullish _ Ht)).
  cbn [rbind]. rewrite Hf. reflexivity.
Qed.

(** [get-forecast] requests two URLs at most: the grid-point URL, then
    the [properties.forecast] URL of the grid-point answer. Two [fetch]es
    that agree on these give the same result. *)
Theorem get_forecast_two_requests (f g : string -> list (string * string) -> exc response)
  (latitude longitude : number)
  (H1 : forall h, f (points_url number toFixed4 latitude longitude) h =
                  g (points_url number toFixed4 latitude longitude) h)
  (H2 : forall v, nws_answers (f (points_url number toFixed4 latitude longitude) nws_headers) v ->
        forall h, f (to_js_string (opt_get (opt_get v "properties") "forecast")) h =
                  g (to_js_string (opt_get (opt_get v "properties") "forecast")) h) :
  get_forecast number toFixed4 num_str f latitude longitude =
  get_forecast number toFixed4 num_str g latitude longitude.
Proof.
  unfold get_forecast. cbv zeta. rewrite !nws_value_eq. unfold points_url in H1, H2.
  rewrite <- H1.
  destruct (f _ nws_headers) as [resp |] eqn:E; [| reflexivity].
  destruct (ok resp) eqn:Eok; [| reflexivity].
  destruct (resp_json resp) as [v |] eqn:Ej; [| reflexivity].
  assert (Hans : nws_answers (Normal resp) v) by (exists resp; auto).
  specialize (H2 v Hans).
  cbn [rbind]. destruct (truthy v) eqn:Et; [| reflexivity]. cbn [negb].
  rewrite get_not_nullish by (reflexivity || exact (truthy_not_nullish _ Et)).
  cbn [rbind]. destruct (truthy (opt_get (opt_get v "properties") "forecast")); [| reflexivity].
  cbn [negb]. rewrite !nws_value_eq, H2. reflexivity.
Qed.

(** When the forecast data has no periods (absent, falsy or an empty
    array), [get-forecast] answers "No forecast periods available". *)
Theorem get_forecast_no_periods fetch (latitude longitude : number) (v w : value)
  (Hv : nws_answers (fetch (points_url number toFixed4 latitude longitude) nws_headers) v)
  (Ht : truthy v = true)
  (Hu : truthy (opt_get (opt_get v "properties") "forecast") = true)
  (Hw : nws_answers (fetch (to_js_string (opt_get (opt_get v "properties") "forecast"))
                           nws_headers) w)
  (Htw : truthy w = true)
  (Hp : truthy (opt_get (opt_get w "properties") "periods") = false \/
        opt_get (opt_get w "properties") "periods" = JArr []) :
  get_forecast number toFixed4 num_str fetch latitude longitude =
  Ok "No forecast periods available".
Proof.
  unfold get_forecast. cbv zeta. rewrite nws_value_eq. unfold points_url in Hv.
  rewrite (nws_answers_value _ _ Hv). cbn [rbind]. rewrite Ht. cbn [negb].
  rewrite get_not_nullish by (reflexivity || exact (truthy_not_nullish _ Ht)).
  cbn [rbind]. rewrite Hu. cbn [negb]. rewrite nws_value_eq, (nws_answers_value _ _ Hw).
  cbn [rbind]. rewrite Htw. cbn [negb].
  rewrite get_not_nullish by (reflexivity || exact (truthy_not_nullish _ Htw)).
  cbn [rbind]. unfold js_or.
  destruct Hp as [Hp | Hp]; rewrite Hp; [| destruct (truthy (JArr []))]; reflexivity.
Qed.


End ForecastFacts.

(** *** Concrete NWS answers *)

Definition fetch_fn := string -> list (string * string) -> exc response.

Definition ok_json (v : value) : exc response := Normal (mk_response true 200 (Normal v)).

Definition sample_alert : value :=
  JObj [("id", JStr "urn:oid:2.49.0.1.840.0.1");
        ("properties", JObj [("event", JStr "Flood Warning"); ("areaDesc", JStr "Marin");
                             ("severity", JStr "Severe"); ("status", JStr "Actual")])].

Definition alerts_data : value :=
  JObj [("type", JStr "FeatureCollection"); ("features", JArr [sample_alert])].

Definition alerts_fetch : fetch_fn := fun u _ =>
  if String.eqb u "https://api.weather.gov/alerts?area=CA" then ok_json alerts_data
  else Thrown (FetchFailed "getaddrinfo ENOTFOUND").

(** Any URL but the alerts one answers differently. *)
Definition alerts_fetch' : fetch_fn := fun u h =>
  if String.eqb u "https://api.weather.gov/alerts?area=CA" then alerts_fetch u h
  else ok_json JNull.

Definition empty_alerts_data : value :=
  JObj [("type", JStr "FeatureCollection"); ("features", JArr [])].

Definition unavailable_fetch : fetch_fn := fun _ _ =>
  Normal (mk_response false 503 (Thrown (JsonFailed "Unexpected token <"))).

Definition forecast_url : string := "https://api.weather.gov/gridpoints/MTR/85,105/forecast".

Definition points_data : value :=
  JObj [("properties", JObj [("forecast", JStr forecast_url); ("gridId", JStr "MTR")])].

Definition tonight_fields : list (string * value) :=
  [("name", JStr "Tonight"); ("temperature", JNum 0); ("temperatureUnit", JStr "F");
        ("windSpeed", JStr "5 mph"); ("windDirection", JStr "W"); ("shortForecast", JStr "Clear")].

Definition tonight : value := JObj tonight_fields.

Definition forecast_data : value := JObj [("properties", JObj [("periods", JArr [tonight])])].

(** Integral coordinates, printed as JavaScript prints them. *)
Definition fixed4 (z : Z) : string := z_dec z ++ ".0000".

Definition forecast_fetch : fetch_fn := fun u _ =>
  if String.eqb u "https://api.weather.gov/points/38.0000,-122.0000" then ok_json points_data
  else if String.eqb u forecast_url then ok_json forecast_data
  else Thrown (FetchFailed "getaddrinfo ENOTFOUND").

Definition forecast_fetch' : fetch_fn := fun u h =>
  if String.eqb u "https://api.weather.gov/points/38.0000,-122.0000" then forecast_fetch u h
  else if String.eqb u forecast_url then forecast_fetch u h
  else ok_json (JObj []).

Definition no_url_fetch : fetch_fn := fun _ _ => ok_json (JObj [("properties", JObj [])]).

Definition no_periods_fetch : fetch_fn := fun u _ =>
  if String.eqb u forecast_url then ok_json (JObj [("properties", JObj [("periods", JArr [])])])
  else ok_json points_data.



Ltac answers := eexists; split; [reflexivity | split; reflexivity].

(** *** Witnesses *)

Lemma get_alerts_one_request_witness :
  get_alerts alerts_fetch "ca" = get_alerts alerts_fetch' "ca".
Proof. apply get_alerts_one_request; [reflexivity | intros h; reflexivity]. Defined.

Lemma get_alerts_failure_witness :
  get_alerts unavailable_fetch "ny" = Ok "Failed to retrieve alerts data".
Proof. apply get_alerts_failure; [reflexivity | simpl; left; reflexivity]. Defined.

Lemma get_alerts_no_features_witness :
  get_alerts (fun _ _ => ok_json empty_alerts_data) "tx" = Ok ("No active alerts for " ++ upper "tx").
Proof.
  apply (get_alerts_no_features _ _ empty_alerts_data).
  - reflexivity.
  - answers.
  - reflexivity.
  - right. reflexivity.
Defined.


Lemma formatAlert_falsy_as_missing_witness :
  formatAlert (JObj [("properties", JObj ([("event", JStr "Heat Advisory")] ++ [("headline", JStr "")]))]) =
  formatAlert (JObj [("properties", JObj (remove_key "headline" [("event", JStr "Heat Advisory")]))]).
Proof. apply formatAlert_falsy_as_missing. reflexivity. Defined.

Lemma format_period_falsy_as_missing_witness :
  format_period (JObj ([("name", JStr "Tonight"); ("temperatureUnit", JStr "F")] ++
                       [("temperature", JNum 0)])) =
  format_period (JObj (remove_key "temperature"
                         [("name", JStr "Tonight"); ("temperatureUnit", JStr "F")])).
Proof. apply format_period_falsy_as_missing. reflexivity. Defined.

Lemma get_forecast_points_failure_witness :
  get_forecast Z fixed4 z_dec unavailable_fetch 38 (-122) =
  Ok ("Failed to retrieve grid point data for coordinates: " ++ z_dec 38 ++ ", " ++ z_dec (-122)
      ++ ". This location may not be supported by the NWS API (only US locations are supported).").
Proof. apply get_forecast_points_failure. simpl. left. reflexivity. Defined.

Lemma get_forecast_no_forecast_url_witness :
  get_forecast Z fixed4 z_dec no_url_fetch 38 (-122) =
  Ok "Failed to get forecast URL from grid point data".
Proof.
  apply (get_forecast_no_forecast_url _ _ _ _ _ _ (JObj [("properties", JObj [])])).
  - answers.
  - reflexivity.
  - reflexivity.
Defined.

Lemma get_forecast_two_requests_witness :
  get_forecast Z fixed4 z_dec forecast_fetch 38 (-122) =
  get_forecast Z fixed4 z_dec forecast_fetch' 38 (-122).
Proof.
  apply get_forecast_two_requests.
  - intros h. reflexivity.
  - intros v [resp [Hr [_ Hj]]] h. simpl in Hr. injection Hr as <-. simpl in Hj.
    injection Hj as <-. reflexivity.
Defined.

Lemma get_forecast_no_periods_witness :
  get_forecast Z fixed4 z_dec no_periods_fetch 38 (-122) = Ok "No forecast periods available".
Proof.
  apply (get_forecast_no_periods _ _ _ _ _ _ points_data
           (JObj [("properties", JObj [("periods", JArr [])])])).
  - answers.
  - reflexivity.
  - reflexivity.
  - answers.
  - reflexivity.
  - right. reflexivity.
Defined.


End WeatherFacts.

(* ================================================================= *)
(** ** Proofs: more of the Express application *)

Module ExpressMoreFacts.
Import Express ExpressFacts.
Local Open Scope list_scope.

(** Every [OPTIONS] request whose body [express.json()] does not
    reject is a CORS preflight answered by the global
    [cors] middleware with 204 and the request's origin reflected: it
    never reaches the auth router, the bearer middleware or a route. *)
Theorem options_preflight_answered (D : deps) (req : request)
  (Hbody : req_body_error req = None) (Hm : req_method req = OPTIONS) :
  let '(r, tr) := handle D req in
  tr = [("jsonParser", true); ("serveStatic", true); ("corsMiddleware", false)] /\
  statusCode r = 204 /\ finished r = true /\
  forall o, header "origin" req = Some o -> In ("Access-Control-Allow-Origin", o) (headers r).
Proof.
  unfold handle. rewrite app_split, run_app.
  unfold app_pre, app, firstn, run_partial, use_all, route, layer_matches, layer_handle,
    layer_name, json_parser, serve_static, cors_app.
  rewrite Hbody, Hm. destruct (header "origin" req) as [o |] eqn:Ho; simpl.
  - split; [reflexivity |]. split; [reflexivity |]. split; [reflexivity |].
    intros o' H. injection H as <-. simpl. tauto.
  - split; [reflexivity |]. split; [reflexivity |]. split; [reflexivity |].
    intros o' H. discriminate.
Qed.

(** Every request under [/mcp] without an [Authorization] header and
    with a body that [express.json()] does not reject,
    whatever its method (the [GET /mcp] information route included),
    is answered by the bearer middleware's 401 challenge; no route
    runs.  Assumed of the SDK, as for the ordering of the bearer
    middleware: its router lets requests under [/mcp] through, and its
    bearer middleware answers 401 with a [WWW-Authenticate] header when
    the header is missing. *)
Theorem mcp_requires_token (D : deps)
  (Hauth : forall req r, use_match "/mcp" (req_path req) = true ->
                         d_authRouter D req r = (r, true))
  (Hbearer : forall req r, header "authorization" req = None -> headersSent r = false ->
     exists r', d_bearerAuth D req r = (r', false) /\ statusCode r' = 401 /\
                exists v, In ("WWW-Authenticate", v) (headers r'))
  (req : request) (Hbody : req_body_error req = None)
  (Hh : header "authorization" req = None) (Hm : req_method req <> OPTIONS)
  (Hs : not_static D req) (Hu : use_match "/mcp" (req_path req) = true) :
  let '(r, tr) := handle D req in
  statusCode r = 401 /\ (exists v, In ("WWW-Authenticate", v) (headers r)) /\
  tr = [("jsonParser", true); ("serveStatic", true); ("corsMiddleware", true);
        ("authRouter", true); ("bearerAuth", false)].
Proof.
  unfold handle. rewrite app_split, run_app, (app_pre_passes D req Hbody Hm Hs), Hauth by exact Hu.
  cbv beta iota zeta. rewrite run_cons.
  cbn [layer_matches layer_handle layer_name bearer_layer]. rewrite Hu.
  destruct (Hbearer req _ Hh (cors_app_unsent req Hm)) as [r' [Hb [Hst Hw]]].
  rewrite Hb. cbv beta iota zeta. auto.
Qed.

(** The information request [GET /mcp], without credentials. *)
Definition req_mcp_info : request := mk_req GET "/mcp" [] JNull.

Lemma options_preflight_answered_witness :
  let '(r, tr) := handle DescopeGuide.guide_deps
                    (mk_req OPTIONS "/mcp" [("origin", "https://claude.ai")] JNull) in
  tr = [("jsonParser", true); ("serveStatic", true); ("corsMiddleware", false)] /\
  statusCode r = 204 /\ finished r = true /\
  forall o, header "origin" (mk_req OPTIONS "/mcp" [("origin", "https://claude.ai")] JNull) = Some o ->
            In ("Access-Control-Allow-Origin", o) (headers r).
Proof. apply options_preflight_answered; reflexivity. Defined.

Lemma mcp_requires_token_witness :
  let '(r, tr) := handle DescopeGuide.guide_deps req_mcp_info in
  statusCode r = 401 /\ (exists v, In ("WWW-Authenticate", v) (headers r)) /\
  tr = [("jsonParser", true); ("serveStatic", true); ("corsMiddleware", true);
        ("authRouter", true); ("bearerAuth", false)].
Proof.
  apply (mcp_requires_token DescopeGuide.guide_deps guide_router_passes_mcp guide_bearer_rejects).
  - reflexivity.
  - reflexivity.
  - discriminate.
  - reflexivity.
  - reflexivity.
Defined.

End ExpressMoreFacts.

(* ================================================================= *)
(** ** Proofs: start-up and shutdown *)

Module LifecycleFacts.
Import Env.

Ltac or_cases H :=
  repeat match type of H with
         | _ \/ _ => destruct H as [H | H]
         end; try contradiction.

(** The start-up output depends on [DESCOPE_PROJECT_ID] and
    [DESCOPE_MANAGEMENT_KEY] only through whether they are set: their
    values are never logged. *)
Theorem startup_hides_secret_values (e e' : env) (connect_ok : bool)
  (Hother : forall k, k <> "DESCOPE_PROJECT_ID" -> k <> "DESCOPE_MANAGEMENT_KEY" -> e k = e' k)
  (Hpid : is_set e "DESCOPE_PROJECT_ID" = is_set e' "DESCOPE_PROJECT_ID")
  (Hkey : is_set e "DESCOPE_MANAGEMENT_KEY" = is_set e' "DESCOPE_MANAGEMENT_KEY") :
  startup e connect_ok = startup e' connect_ok.
Proof.
  assert (Hurl : e "SERVER_URL" = e' "SERVER_URL") by (apply Hother; discriminate).
  assert (Hport : e "PORT" = e' "PORT") by (apply Hother; discriminate).
  assert (Hsurl : is_set e "SERVER_URL" = is_set e' "SERVER_URL")
    by (unfold is_set; rewrite Hurl; reflexivity).
  unfold startup, missingEnvVars, requiredEnvVars, set_or_missing, PORT. cbn [filter].
  rewrite Hpid, Hkey, Hsurl, Hurl, Hport. reflexivity.
Qed.

(** Up to the call of [app.listen], the process exits with code 1
    exactly when a required variable is missing or connecting the MCP
    server fails; it connects exactly when every required variable is
    set; and it calls [app.listen] on [PORT] (or 3000 when [PORT] is
    unset or empty) exactly when both went well. *)
Theorem startup_outcome (e : env) (connect_ok : bool) :
  (In (EExit 1) (startup e connect_ok) <-> missingEnvVars e <> [] \/ connect_ok = false) /\
  (In EConnect (startup e connect_ok) <-> missingEnvVars e = []) /\
  (forall p, In (EListen p) (startup e connect_ok) <->
             missingEnvVars e = [] /\ connect_ok = true /\ p = PORT e).
Proof.
  unfold startup. destruct (missingEnvVars e) as [| m ms]; cbn [length Nat.ltb Nat.leb].
  - destruct connect_ok; cbn [app In].
    + split; [| split].
      * split; [intros H; or_cases H; discriminate
               | intros [H | H]; [congruence | discriminate]].
      * tauto.
      * intros p. split.
        -- intros H; or_cases H; try discriminate; try contradiction.
           injection H as <-. tauto.
        -- intros (_ & _ & ->). tauto.
    + split; [| split].
      * split; [tauto | intros _; tauto].
      * tauto.
      * intros p. split.
        -- intros H; or_cases H; discriminate.
        -- intros (_ & H & _); discriminate.
  - cbn [In]. split; [| split].
    + split; [intros _; left; discriminate | tauto].
    + split; [intros H; or_cases H; discriminate | discriminate].
    + intros p. split.
      * intros H; or_cases H; discriminate.
      * intros (H & _); discriminate.
Qed.

Definition env_one : env := fun k =>
  if String.eqb k "DESCOPE_PROJECT_ID" then Some "P2abc"
  else if String.eqb k "DESCOPE_MANAGEMENT_KEY" then Some "K2-first-key"
  else if String.eqb k "SERVER_URL" then Some "https://weather.example.com"
  else None.

Definition env_two : env := fun k =>
  if String.eqb k "DESCOPE_PROJECT_ID" then Some "P2xyz"
  else if String.eqb k "DESCOPE_MANAGEMENT_KEY" then Some "K2-other-key"
  else if String.eqb k "SERVER_URL" then Some "https://weather.example.com"
  else None.

Lemma startup_hides_secret_values_witness : startup env_one true = startup env_two true.
Proof.
  apply startup_hides_secret_values.
  - intros k H1 H2. unfold env_one, env_two.
    apply String.eqb_neq in H1, H2. rewrite H1, H2. reflexivity.
  - reflexivity.
  - reflexivity.
Defined.

End LifecycleFacts.
